(** * Frame Extraction / download_vimeo_frames.py

    A shallow embedding of the batch fetch-and-sample pipeline:
    [download_video], [capture_random_frames], [secure_delete_file],
    [process_video] and [batch_process_videos].

    The Python code talks to the outside world (yt-dlp, OpenCV, the file
    system, the random generator).  Those calls are the fields of [Env];
    every one of them may raise, and the try/except blocks of the source
    decide what becomes of the exception.  The state that is threaded
    through is the set of existing paths and the shared [stats] dict.

    Not modelled: the log (every logger call is dropped), wall-clock time
    (the delay of the rate limiter, the elapsed time of the summary), the
    unused float [duration], and the interleaving of the four worker
    threads: an item is run from start to end when it is submitted.  The
    counters are only touched under [LOCK], one increment per block. *)

From Stdlib Require Import ZArith String Ascii List Lia.
From stdpp Require Import base gmap strings list pretty sorting.

Local Open Scope string_scope.
Local Open Scope Z_scope.

(** ** Values *)

(** A cell of the data frame as [row["..."]] yields it: a missing value, a
    string, an integer (an all-integer column), or a float that is not
    NaN (a numeric column with a fraction or with a missing value, where
    pandas reads 1 as 1.0).  All the program does with a float is format
    it, so a float is kept as the text [str] gives for it. *)
Inductive cell : Type :=
  | NaN
  | Str (s : string)
  | Num (z : Z)
  | Flt (text : string).

(** [str(x)] / [f"{x}"] of a cell. *)
Definition str (c : cell) : string :=
  match c with
  | NaN => "nan"
  | Str s => s
  | Num z => pretty z
  | Flt text => text
  end.

(** [pd.isna] *)
Definition isna (c : cell) : bool :=
  match c with NaN => true | _ => false end.

Inductive exn : Type :=
  | KeyError (k : string)
  | AttributeError (attr : string)
  | TimeoutExpired
  | ValueError
  | OtherException (what : string).

Inductive result (A : Type) : Type :=
  | Ok (a : A)
  | Raise (e : exn).
Arguments Ok {A} a.
Arguments Raise {A} e.

(** An opened [cv2.VideoCapture]. *)
Record capture : Type := Capture {
  isOpened : bool;
  frame_count_of : Z;          (* int(cap.get(cv2.CAP_PROP_FRAME_COUNT)) *)
  read : Z -> bool             (* ret of cap.read() after seeking there *)
}.

Record dataframe : Type := DataFrame {
  columns : list string;
  rows : list (gmap string cell)
}.

(** The external collaborators.  The file-system calls see the set of
    existing paths.  Each call returns or raises as the collaborator
    decides; nothing is assumed about them. *)
Record Env : Type := {
  (* time.sleep(random.uniform(...)) under LOCK *)
  sleep : result unit;
  (* subprocess.run of yt-dlp on a url and an output path: the files it
     leaves, and its return code or the exception of the call *)
  subprocess_run : string -> string -> gset string -> gset string * result Z;
  (* cv2.VideoCapture(path) with its properties *)
  VideoCapture : string -> gset string -> result capture;
  (* random.sample(range(frame_count), num_frames) *)
  random_sample : Z -> Z -> result (list Z);
  (* cv2.imwrite(path, frame) *)
  imwrite : string -> gset string -> result bool;
  os_makedirs : string -> gset string -> result unit;
  os_remove : string -> gset string -> result unit;
  os_rmdir : string -> gset string -> result unit;
  (* pd.read_csv(csv_file) *)
  read_csv : string -> result dataframe
}.

(** ** State and the state-and-exception monad *)

Record world : Type := World {
  fs : gset string;
  stats : gmap string Z
}.

Definition set_fs (f : gset string) (w : world) : world :=
  {| fs := f; stats := stats w |}.
Definition set_stats (s : gmap string Z) (w : world) : world :=
  {| fs := fs w; stats := s |}.

Definition M (A : Type) : Type := world -> result A * world.

Definition ret {A} (a : A) : M A := fun w => (Ok a, w).
Definition raise {A} (e : exn) : M A := fun w => (Raise e, w).
Definition bind {A B} (m : M A) (k : A -> M B) : M B :=
  fun w => match m w with
           | (Ok a, w') => k a w'
           | (Raise e, w') => (Raise e, w')
           end.
(** [try: m  except Exception as e: h e] *)
Definition try_except {A} (m : M A) (h : exn -> M A) : M A :=
  fun w => match m w with
           | (Ok a, w') => (Ok a, w')
           | (Raise e, w') => h e w'
           end.
(** Lift the outcome of an external call that leaves the state alone. *)
Definition lift {A} (r : result A) : M A := fun w => (r, w).

Declare Scope py_scope.
Delimit Scope py_scope with py.
Notation "'let*' x ':=' m 'in' k" := (bind m (fun x => k))
  (at level 10, x name, m at level 100, k at level 200) : py_scope.
Local Open Scope py_scope.

(** ** Strings and paths *)

(** The ASCII characters [str.strip()] removes.  The white space beyond
    ASCII (U+0085, U+00A0 and the like) is not modelled: [strip] below is
    that of Python on strings of ASCII characters. *)
Definition is_py_space (a : ascii) : bool :=
  let n := N_of_ascii a in
  ((9 <=? n) && (n <=? 13) || (28 <=? n) && (n <=? 32))%N.

Fixpoint lstrip (s : string) : string :=
  match s with
  | String a s' => if is_py_space a then lstrip s' else s
  | EmptyString => EmptyString
  end.

Definition strip (s : string) : string :=
  String.rev (lstrip (String.rev (lstrip s))).

(** [os.path.join a b] on POSIX, for a non-empty [a] without a trailing
    slash: an absolute [b] replaces [a]. *)
Definition os_path_join (a b : string) : string :=
  match b with
  | String "/" _ => b
  | _ => a +:+ "/" +:+ b
  end.

(** ** Global variables *)

Definition DOWNLOAD_DIR : string := "temp_downloads".
Definition OUTPUT_DIR : string := "final-dataset".

Section Pipeline.

Context (env : Env).

(** ** File-system primitives *)

Definition os_path_exists (p : string) : M bool :=
  fun w => (Ok (bool_decide (p ∈ fs w)), w).

(** [os.makedirs d]: the path itself is added.  The missing parents,
    which [os.makedirs] would create on its way, are not modelled: this
    is [os.makedirs] on a path whose parent exists or that has none. *)
Definition makedirs (d : string) : M unit :=
  fun w => match os_makedirs env d (fs w) with
           | Ok _ => (Ok tt, set_fs ({[d]} ∪ fs w) w)
           | Raise e => (Raise e, w)
           end.

Definition remove (p : string) : M unit :=
  fun w => match os_remove env p (fs w) with
           | Ok _ => (Ok tt, set_fs (fs w ∖ {[p]}) w)
           | Raise e => (Raise e, w)
           end.

Definition rmdir (d : string) : M unit :=
  fun w => match os_rmdir env d (fs w) with
           | Ok _ => (Ok tt, set_fs (fs w ∖ {[d]}) w)
           | Raise e => (Raise e, w)
           end.

(** [cv2.imwrite]: the file is there when the call reports [True]. *)
Definition cv2_imwrite (p : string) : M bool :=
  fun w => match imwrite env p (fs w) with
           | Ok true => (Ok true, set_fs ({[p]} ∪ fs w) w)
           | Ok false => (Ok false, w)
           | Raise e => (Raise e, w)
           end.

(** [subprocess.run(command, ..., timeout=DOWNLOAD_TIMEOUT)] for yt-dlp:
    whatever it returns or raises, it may have changed the files. *)
Definition run_yt_dlp (url output_path : string) : M Z :=
  fun w => let '(f, r) := subprocess_run env url output_path (fs w) in
           (r, set_fs f w).

Definition ensure_dir_exists (directory : string) : M unit :=
  let* ex := os_path_exists directory in
  if negb ex then makedirs directory else ret tt.

(** ** download_video *)

Definition download_video (url : string) (video_number : cell)
  : M (option string) :=
  let output_path :=
    os_path_join DOWNLOAD_DIR (str video_number +:+ "_temp.mp4") in
  try_except
    (let* returncode := run_yt_dlp url output_path in
     let* ex := os_path_exists output_path in
     if Z.eqb returncode 0 && ex then ret (Some output_path) else ret None)
    (fun _ => ret None).

(** ** capture_random_frames *)

(** [range(n)] and [enumerate(l, start)] *)
Definition range (n : Z) : list Z := map Z.of_nat (seq 0 (Z.to_nat n)).

Fixpoint enumerate {A} (start : Z) (l : list A) : list (Z * A) :=
  match l with
  | [] => []
  | x :: l' => (start, x) :: enumerate (start + 1) l'
  end.

(** [[int(i * frame_count / num_frames) for i in range(num_frames)]]:
    [int] truncates the quotient toward zero.  The quotient is a float in
    Python; it is taken exact here, which it is as long as
    [i * frame_count] stays below 2^53. *)
Definition evenly_spaced (frame_count num_frames : Z) : list Z :=
  map (fun i => Z.quot (i * frame_count) num_frames) (range num_frames).

(** Lines 110-116: the positions to seek to. *)
Definition choose_frame_indices (frame_count num_frames : Z) : M (list Z) :=
  if frame_count <? num_frames then
    ret (evenly_spaced frame_count num_frames)
  else
    let* picked := lift (random_sample env frame_count num_frames) in
    ret (merge_sort Z.le picked).

(** Lines 119-127: one [cap.read()] per position, one file per frame read. *)
Fixpoint save_frames (cap : capture) (frame_dir : string)
    (video_number : cell) (frame_indices : list (Z * Z)) : M unit :=
  match frame_indices with
  | [] => ret tt
  | (i, frame_idx) :: rest =>
      let* _ :=
        (if read cap frame_idx then
           let output_path :=
             os_path_join frame_dir
               (str video_number +:+ "_" +:+ pretty i +:+ ".jpg") in
           let* _ := cv2_imwrite output_path in ret tt
         else ret tt) in
      save_frames cap frame_dir video_number rest
  end.

Definition capture_random_frames (video_path : string) (video_number : cell)
    (num_frames : Z) : M bool :=
  try_except
    (let* cap := (fun w => (VideoCapture env video_path (fs w), w)) in
     if negb (isOpened cap) then ret false
     else
       let frame_count := frame_count_of cap in
       if frame_count <=? 0 then ret false
       else
         let frame_dir := os_path_join OUTPUT_DIR (str video_number) in
         let* _ := ensure_dir_exists frame_dir in
         let* frame_indices := choose_frame_indices frame_count num_frames in
         let* _ := save_frames cap frame_dir video_number
                     (enumerate 1 frame_indices) in
         ret true)
    (fun _ => ret false).

(** ** secure_delete_file *)

Definition secure_delete_file (file_path : string) : M bool :=
  try_except
    (let* ex := os_path_exists file_path in
     if ex then let* _ := remove file_path in ret true
     else ret false)
    (fun _ => ret false).

(** ** process_video *)

(** [stats[k] += 1] on the shared dict. *)
Definition stats_incr (k : string) : M unit :=
  fun w => match stats w !! k with
           | Some v => (Ok tt, set_stats (<[k := v + 1]> (stats w)) w)
           | None => (Raise (KeyError k), w)
           end.

(** [with LOCK: delay = random.uniform(...); time.sleep(delay)] *)
Definition rate_limit : M unit := lift (sleep env).

(** Lines 156-181, the body of the [try]. *)
Definition process_video_try (video_number : cell) (url : string) : M bool :=
  let* _ := rate_limit in
  let* video_path := download_video url video_number in
  match video_path with
  | None =>
      let* _ := stats_incr "failed" in
      ret false
  | Some video_path =>
      let* frames_success :=
        capture_random_frames video_path video_number 5 in
      let* _ := secure_delete_file video_path in
      let* _ := (if frames_success then stats_incr "successful"
                 else stats_incr "partial") in
      ret frames_success
  end.

Definition process_video (video_number : cell) (url : string) : M bool :=
  try_except
    (process_video_try video_number url)
    (fun _ =>
       let* _ := stats_incr "failed" in
       ret false).

(** ** batch_process_videos *)

(** [row[k]] *)
Definition row_get (row : gmap string cell) (k : string) : M cell :=
  match row !! k with
  | Some c => ret c
  | None => raise (KeyError k)
  end.

(** [not pd.isna(link) and link.strip() != ""]: a number has no [strip]. *)
Definition has_link (link : cell) : M bool :=
  if isna link then ret false
  else match link with
       | Str s => ret (negb (String.eqb (strip s) ""))
       | _ => raise (AttributeError "strip")
       end.

(** [executor.submit(f, ...)]: the future keeps what the call returned or
    raised. *)
Definition submit {A} (task : M A) : M (result A) :=
  fun w => let '(r, w') := task w in (Ok r, w').

(** Lines 234-237: the dict of futures, built row by row. *)
Fixpoint submit_all (rws : list (gmap string cell))
  : M (list (result bool * cell)) :=
  match rws with
  | [] => ret []
  | row :: rest =>
      let* link := row_get row "vimeo_link" in
      let* keep := has_link link in
      if keep then
        let* video_number := row_get row "video_number" in
        let* url := row_get row "vimeo_link" in
        let* future := submit (process_video video_number (str url)) in
        let* video_number := row_get row "video_number" in
        let* futures := submit_all rest in
        ret ((future, video_number) :: futures)
      else submit_all rest
  end.

(** Lines 240-245: [future.result()] under its own try/except. *)
Fixpoint as_completed (futures : list (result bool * cell)) : M unit :=
  match futures with
  | [] => ret tt
  | (future, video_number) :: rest =>
      let* _ := try_except (let* _ := lift future in ret tt)
                           (fun _ => ret tt) in
      as_completed rest
  end.

(** [df.head(n)] on the rows: a negative [n] drops the last [-n] rows. *)
Definition head {A} (n : Z) (l : list A) : list A :=
  if 0 <=? n then take (Z.to_nat n) l
  else take (length l - Z.to_nat (- n)) l.

(** [if limit: df = df.head(limit)] *)
Definition apply_limit (limit : option Z) (df : dataframe) : dataframe :=
  match limit with
  | Some n =>
      if Z.eqb n 0 then df
      else {| columns := columns df; rows := head n (rows df) |}
  | None => df
  end.

(** [len(os.listdir(d)) == 0] *)
Definition listdir_empty (d : string) : M bool :=
  fun w => (Ok (forallb (fun p => negb (String.prefix (d +:+ "/") p))
                        (elements (fs w))), w).

Definition get_stats : M (gmap string Z) := fun w => (Ok (stats w), w).

(** The function returns [None] on every path; what is modelled as its
    result is the summary it logs: [Some stats] when the summary of lines
    260-266 is produced, [None] when the run returns before it. *)
Definition batch_process_videos (csv_file : string) (limit : option Z)
  : M (option (gmap string Z)) :=
  let* _ := ensure_dir_exists DOWNLOAD_DIR in
  let* _ := ensure_dir_exists OUTPUT_DIR in
  let* loaded := try_except
                   (let* df := lift (read_csv env csv_file) in ret (Some df))
                   (fun _ => ret None) in
  match loaded with
  | None => ret None
  | Some df =>
      if negb (bool_decide ("video_number" ∈ columns df))
         || negb (bool_decide ("vimeo_link" ∈ columns df))
      then ret None
      else
        let df := apply_limit limit df in
        let* _ := (fun w =>
                     (Ok tt,
                      set_stats {[ "total" := Z.of_nat (length (rows df));
                                   "successful" := 0;
                                   "partial" := 0;
                                   "failed" := 0 ]}%Z w)) in
        let* future_to_video := submit_all (rows df) in
        let* _ := as_completed future_to_video in
        let* _ := try_except
                    (let* ex := os_path_exists DOWNLOAD_DIR in
                     let* empty := listdir_empty DOWNLOAD_DIR in
                     if ex && empty then rmdir DOWNLOAD_DIR else ret tt)
                    (fun _ => ret tt) in
        let* summary := get_stats in
        ret (Some summary)
  end.

End Pipeline.

(** ** Vocabulary of the statements *)

(** A computation that leaves the shared counters alone. *)
Definition keeps_stats {A} (m : M A) : Prop :=
  forall w, stats (snd (m w)) = stats w.

(** A computation that never lets an exception out. *)
Definition never_raises {A} (m : M A) : Prop :=
  forall w, exists a, fst (m w) = Ok a.

(** The three terminal buckets. *)
Definition buckets : list string := ["successful"; "partial"; "failed"].

(** [successful + partial + failed] *)
Definition counter_sum (s : gmap string Z) : Z :=
  default 0 (s !! "successful") + default 0 (s !! "partial")
  + default 0 (s !! "failed").

(** [s'] is [s] after one [s[k] += 1]. *)
Definition bumped (k : string) (s s' : gmap string Z) : Prop :=
  exists v, s !! k = Some v /\ s' = <[k := v + 1]> s.

(** The rows the comprehension of lines 234-237 keeps: the link is a
    string that is not blank. *)
Definition dispatchable (row : gmap string cell) : bool :=
  match row !! "vimeo_link" with
  | Some (Str s) => negb (String.eqb (strip s) "")
  | _ => false
  end.

(** A row whose link is missing or blank. *)
Definition blank_link (row : gmap string cell) : Prop :=
  row !! "vimeo_link" = Some NaN
  \/ exists s, row !! "vimeo_link" = Some (Str s) /\ strip s = "".

(** The path [download_video] asks yt-dlp to write. *)
Definition temp_path (video_number : cell) : string :=
  os_path_join DOWNLOAD_DIR (str video_number +:+ "_temp.mp4").


(** The dict of lines 222-227. *)
Definition fresh_stats (total : Z) : gmap string Z :=
  {[ "total" := total; "successful" := 0; "partial" := 0; "failed" := 0 ]}.

(** Two runs return (or raise) the same and leave the same counters. *)
Definition same_outcome {A} (r r' : result A * world) : Prop :=
  fst r = fst r' /\ stats (snd r) = stats (snd r').

(** The fetch of an item reports failure: yt-dlp raised (a timeout or
    any other exception), exited with a non-zero status, or left no file
    at the output path (the conditions of lines 68-80). *)
Definition fetch_failed (env : Env) (url : string) (video_number : cell)
    (w : world) : Prop :=
  match subprocess_run env url (temp_path video_number) (fs w) with
  | (_, Raise _) => True
  | (f, Ok returncode) => returncode <> 0 \/ temp_path video_number ∉ f
  end.

(** The same collaborators with another [os.remove]. *)
Definition with_os_remove (rm : string -> gset string -> result unit)
    (env : Env) : Env :=
  {| sleep := sleep env;
     subprocess_run := subprocess_run env;
     VideoCapture := VideoCapture env;
     random_sample := random_sample env;
     imwrite := imwrite env;
     os_makedirs := os_makedirs env;
     os_remove := rm;
     os_rmdir := os_rmdir env;
     read_csv := read_csv env |}.

(** The same collaborators with another [random.sample]. *)
Definition with_random_sample (rs : Z -> Z -> result (list Z))
    (env : Env) : Env :=
  {| sleep := sleep env;
     subprocess_run := subprocess_run env;
     VideoCapture := VideoCapture env;
     random_sample := rs;
     imwrite := imwrite env;
     os_makedirs := os_makedirs env;
     os_remove := os_remove env;
     os_rmdir := os_rmdir env;
     read_csv := read_csv env |}.


(** The directory [capture_random_frames] writes the samples of an item
    to (line 107), and the path of its [i]-th sample (line 123). *)
Definition frame_dir_of (video_number : cell) : string :=
  os_path_join OUTPUT_DIR (str video_number).

Definition sample_path (video_number : cell) (i : Z) : string :=
  os_path_join (frame_dir_of video_number)
    (str video_number +:+ "_" +:+ pretty i +:+ ".jpg").

(** Every character of the string is one [str.strip()] removes. *)
Fixpoint all_space (s : string) : bool :=
  match s with
  | String a s' => is_py_space a && all_space s'
  | EmptyString => true
  end.

(** A single path component: no slash, and not the empty name, [.] or
    [..].  For such a name under an existing directory [os.makedirs] has
    no parent to create, and the name is not an alias of another path. *)
Fixpoint has_slash (s : string) : bool :=
  match s with
  | String a s' => Ascii.eqb a "/" || has_slash s'
  | EmptyString => false
  end.

Definition plain_name (s : string) : bool :=
  negb (has_slash s) && negb (String.eqb s "")
  && negb (String.eqb s ".") && negb (String.eqb s "..").

(** Every character is a decimal digit or a minus sign, as in the text
    of an integer. *)
Fixpoint numeral_chars (s : string) : bool :=
  match s with
  | String a s' =>
      ((48 <=? N_of_ascii a) && (N_of_ascii a <=? 57)
       || (N_of_ascii a =? 45))%N && numeral_chars s'
  | EmptyString => true
  end.

(** Every character is an ASCII character (a code below 128): on such a
    string the white space of [str.strip()] is the white space of
    [is_py_space]. *)
Fixpoint is_ascii (s : string) : bool :=
  match s with
  | String a s' => (N_of_ascii a <? 128)%N && is_ascii s'
  | EmptyString => true
  end.

(** A row that has a video number and whose link is missing or a string
    of ASCII characters, as in a manifest whose [vimeo_link] column holds
    URLs. *)
Definition url_row (row : gmap string cell) : Prop :=
  is_Some (row !! "video_number")
  /\ (row !! "vimeo_link" = Some NaN
      \/ exists s, row !! "vimeo_link" = Some (Str s) /\ is_ascii s = true).

(** A computation that removes no path and creates only paths in [P]. *)
Definition adds_only {A} (P : string -> Prop) (m : M A) : Prop :=
  forall w,
    fs w ⊆ fs (snd (m w))
    /\ forall q, q ∈ fs (snd (m w)) -> q ∈ fs w \/ P q.


(** ** Concrete runs *)

Module Scenario.

Definition mkrow (n : Z) (link : cell) : gmap string cell :=
  {[ "video_number" := Num n; "vimeo_link" := link ]}.

Definition manifest (rws : list (gmap string cell)) : dataframe :=
  {| columns := ["video_number"; "vimeo_link"]; rows := rws |}.

(** Collaborators that never raise: the manifest that is read, what yt-dlp
    does, and the media behind a download path are the parameters; the
    random generator picks frames 90, 10, 50, 30 and 70. *)
Definition studio (df : dataframe)
    (yt_dlp : string -> string -> gset string -> gset string * result Z)
    (media : string -> capture) : Env :=
  {| sleep := Ok tt;
     subprocess_run := yt_dlp;
     VideoCapture := fun p _ => Ok (media p);
     random_sample := fun _ _ => Ok [90; 10; 50; 30; 70];
     imwrite := fun _ _ => Ok true;
     os_makedirs := fun _ _ => Ok tt;
     os_remove := fun _ _ => Ok tt;
     os_rmdir := fun _ _ => Ok tt;
     read_csv := fun _ => Ok df |}.

(** yt-dlp writes the file and exits with status 0. *)
Definition fetch_ok (url out : string) (f : gset string)
  : gset string * result Z := ({[out]} ∪ f, Ok 0).

(** A clip of 100 frames, every one of them readable. *)
Definition clip (p : string) : capture :=
  {| isOpened := true; frame_count_of := 100; read := fun _ => true |}.

Definition start : world := {| fs := ∅; stats := ∅ |}.

(** Three rows: A is fetched and all 5 samples are written; the fetch of B
    fails; C is fetched but only the frames before position 40 can be
    read, so that 2 of the 5 samples are written. *)
Definition three_rows : dataframe :=
  manifest [mkrow 1 (Str "https://vimeo.com/A");
            mkrow 2 (Str "https://vimeo.com/B");
            mkrow 3 (Str "https://vimeo.com/C")].

Definition three_rows_env : Env :=
  studio three_rows
    (fun url out f =>
       if String.eqb url "https://vimeo.com/B" then (f, Ok 1)
       else fetch_ok url out f)
    (fun p =>
       if String.eqb p "temp_downloads/3_temp.mp4"
       then {| isOpened := true; frame_count_of := 100;
               read := fun idx => idx <? 40 |}
       else clip p).

(** A file that opens but reports no frames. *)
Definition no_frames (p : string) : capture :=
  {| isOpened := true; frame_count_of := 0; read := fun _ => false |}.

Definition no_frames_env : Env :=
  studio (manifest [mkrow 1 (Str "https://vimeo.com/A")]) fetch_ok no_frames.

(** A manifest with a missing link and a blank link. *)
Definition blank_rows : dataframe :=
  manifest [mkrow 1 (Str "https://vimeo.com/A");
            mkrow 2 NaN;
            mkrow 3 (Str "   ")].

Definition blank_rows_env : Env := studio blank_rows fetch_ok clip.

(** yt-dlp leaves a file at the output path and exits with status 1. *)
Definition broken_fetch_env : Env :=
  studio (manifest [mkrow 7 (Str "https://vimeo.com/G")])
    (fun url out f => ({[out]} ∪ f, Ok 1)) clip.

(** A manifest without the [vimeo_link] column. *)
Definition no_link_column : dataframe :=
  {| columns := ["video_number"; "title"];
     rows := [ {[ "video_number" := Num 1; "title" := Str "intro" ]} ] |}.

Definition no_link_column_env : Env := studio no_link_column fetch_ok clip.


(** The manifest cannot be read. *)
Definition unreadable_env : Env :=
  {| sleep := Ok tt;
     subprocess_run := fetch_ok;
     VideoCapture := fun p _ => Ok (clip p);
     random_sample := fun _ _ => Ok [90; 10; 50; 30; 70];
     imwrite := fun _ _ => Ok true;
     os_makedirs := fun _ _ => Ok tt;
     os_remove := fun _ _ => Ok tt;
     os_rmdir := fun _ _ => Ok tt;
     read_csv := fun _ => Raise (OtherException "FileNotFoundError") |}.

(** No directory can be created. *)
Definition read_only_env : Env :=
  {| sleep := Ok tt;
     subprocess_run := fetch_ok;
     VideoCapture := fun p _ => Ok (clip p);
     random_sample := fun _ _ => Ok [90; 10; 50; 30; 70];
     imwrite := fun _ _ => Ok true;
     os_makedirs := fun _ _ => Raise (OtherException "PermissionError");
     os_remove := fun _ _ => Ok tt;
     os_rmdir := fun _ _ => Ok tt;
     read_csv := fun _ => Ok three_rows |}.

(** A manifest whose links are bare Vimeo ids, read as numbers. *)
Definition numeric_links : dataframe :=
  manifest [mkrow 1 (Num 76979871); mkrow 2 (Num 22439234)].

Definition numeric_links_env : Env := studio numeric_links fetch_ok clip.

(** A clip of 3 frames, every one of them readable. *)
Definition short_clip (p : string) : capture :=
  {| isOpened := true; frame_count_of := 3; read := fun _ => true |}.

Definition short_clip_env : Env :=
  studio (manifest [mkrow 1 (Str "https://vimeo.com/A")]) fetch_ok short_clip.

(** A world in which a run has created its counters. *)
Definition running (total : Z) : world :=
  {| fs := {["temp_downloads"; "final-dataset"]};
     stats := fresh_stats total |}.

End Scenario.

(** * Properties *)

(** ** The monad *)

Lemma bind_Ok_inv {A B} (m : M A) (k : A -> M B) w b w' :
  bind m k w = (Ok b, w') ->
  exists a w1, m w = (Ok a, w1) /\ k a w1 = (Ok b, w').
Proof.
  unfold bind. destruct (m w) as [[a|e] w1]; intros H; [eauto | discriminate].
Qed.

Lemma bind_eq {A B} (m : M A) (k : A -> M B) w a w1 :
  m w = (Ok a, w1) -> bind m k w = k a w1.
Proof. unfold bind. now intros ->. Qed.

Lemma bind_ext {A B} (m : M A) (k k' : A -> M B) w :
  (forall a w1, k a w1 = k' a w1) -> bind m k w = bind m k' w.
Proof. intros H. unfold bind. now destruct (m w) as [[a|e] w1]. Qed.

Lemma keeps_ret {A} (a : A) : keeps_stats (ret a).
Proof. now intros w. Qed.

Lemma keeps_raise {A} e : keeps_stats (@raise A e).
Proof. now intros w. Qed.

Lemma keeps_lift {A} (r : result A) : keeps_stats (lift r).
Proof. now intros w. Qed.

Lemma keeps_bind {A B} (m : M A) (k : A -> M B) :
  keeps_stats m -> (forall a, keeps_stats (k a)) -> keeps_stats (bind m k).
Proof.
  intros Hm Hk w. unfold bind. specialize (Hm w).
  destruct (m w) as [[a|e] w1]; simpl in *; [| assumption].
  now rewrite Hk.
Qed.

Lemma keeps_try {A} (m : M A) (h : exn -> M A) :
  keeps_stats m -> (forall e, keeps_stats (h e)) -> keeps_stats (try_except m h).
Proof.
  intros Hm Hh w. unfold try_except. specialize (Hm w).
  destruct (m w) as [[a|e] w1]; simpl in *; [assumption |].
  now rewrite Hh.
Qed.

Lemma keeps_if {A} (b : bool) (m1 m2 : M A) :
  keeps_stats m1 -> keeps_stats m2 -> keeps_stats (if b then m1 else m2).
Proof. now destruct b. Qed.

Lemma never_try {A} (m : M A) (h : exn -> M A) :
  (forall e, never_raises (h e)) -> never_raises (try_except m h).
Proof.
  intros Hh w. unfold try_except.
  destruct (m w) as [[a|e] w1]; [now exists a | apply Hh].
Qed.

Lemma never_ret {A} (a : A) : never_raises (ret a).
Proof. intros w. now exists a. Qed.

Create HintDb py discriminated.
#[local] Hint Resolve @keeps_ret @keeps_raise @keeps_lift @keeps_bind
  @keeps_try @keeps_if @never_try @never_ret : py.

Section Effects.

Context (env : Env).

Lemma keeps_os_path_exists p : keeps_stats (os_path_exists p).
Proof. now intros w. Qed.

Lemma keeps_makedirs d : keeps_stats (makedirs env d).
Proof. intros w. unfold makedirs. now destruct (os_makedirs env d (fs w)). Qed.

Lemma keeps_remove p : keeps_stats (remove env p).
Proof. intros w. unfold remove. now destruct (os_remove env p (fs w)). Qed.

Lemma keeps_rmdir d : keeps_stats (rmdir env d).
Proof. intros w. unfold rmdir. now destruct (os_rmdir env d (fs w)). Qed.

Lemma keeps_cv2_imwrite p : keeps_stats (cv2_imwrite env p).
Proof.
  intros w. unfold cv2_imwrite. now destruct (imwrite env p (fs w)) as [[]|].
Qed.

Lemma keeps_run_yt_dlp url out : keeps_stats (run_yt_dlp env url out).
Proof.
  intros w. unfold run_yt_dlp. now destruct (subprocess_run env url out (fs w)).
Qed.

Lemma keeps_listdir_empty d : keeps_stats (listdir_empty d).
Proof. now intros w. Qed.

#[local] Hint Resolve keeps_os_path_exists keeps_makedirs keeps_remove
  keeps_rmdir keeps_cv2_imwrite keeps_run_yt_dlp keeps_listdir_empty : py.

Lemma keeps_ensure_dir_exists d : keeps_stats (ensure_dir_exists env d).
Proof. unfold ensure_dir_exists. auto 6 with py. Qed.

Lemma keeps_download_video url vn : keeps_stats (download_video env url vn).
Proof. unfold download_video. auto 8 with py. Qed.

Lemma keeps_choose_frame_indices fc n :
  keeps_stats (choose_frame_indices env fc n).
Proof. unfold choose_frame_indices. auto 6 with py. Qed.

Lemma keeps_save_frames cap dir vn l : keeps_stats (save_frames env cap dir vn l).
Proof.
  induction l as [|[i idx] l IH]; simpl; auto 8 with py.
Qed.

#[local] Hint Resolve keeps_ensure_dir_exists keeps_choose_frame_indices
  keeps_save_frames : py.

Lemma keeps_capture_random_frames p vn n :
  keeps_stats (capture_random_frames env p vn n).
Proof.
  unfold capture_random_frames.
  apply keeps_try; [| auto with py].
  apply keeps_bind; [now intros w |].
  intros cap. auto 10 with py.
Qed.

Lemma keeps_secure_delete_file p : keeps_stats (secure_delete_file env p).
Proof. unfold secure_delete_file. auto 8 with py. Qed.

Lemma never_download_video url vn : never_raises (download_video env url vn).
Proof. unfold download_video. auto with py. Qed.

Lemma never_capture_random_frames p vn n :
  never_raises (capture_random_frames env p vn n).
Proof. unfold capture_random_frames. auto with py. Qed.

Lemma never_secure_delete_file p : never_raises (secure_delete_file env p).
Proof. unfold secure_delete_file. auto with py. Qed.

End Effects.

(** ** One item *)

Section Item.

Context (env : Env).

Lemma never_raises_run {A} (m : M A) w :
  never_raises m -> exists a w', m w = (Ok a, w').
Proof.
  intros H. destruct (H w) as [a Ha]. destruct (m w) as [r w'].
  simpl in Ha. subst r. eauto.
Qed.

Lemma keeps_stats_run {A} (m : M A) w r w' :
  keeps_stats m -> m w = (r, w') -> stats w' = stats w.
Proof. intros H E. specialize (H w). now rewrite E in H. Qed.

Lemma stats_incr_Some k v w :
  stats w !! k = Some v ->
  stats_incr k w = (Ok tt, set_stats (<[k := v + 1]> (stats w)) w).
Proof. unfold stats_incr. now intros ->. Qed.

Lemma stats_incr_raise_same k e w w' :
  stats_incr k w = (Raise e, w') -> w' = w.
Proof.
  unfold stats_incr. destruct (stats w !! k); intros H; congruence.
Qed.

(** The fetch failed: one increment of [failed], and nothing is removed. *)
Lemma process_video_fetch_failed vn url w w1 f :
  sleep env = Ok tt ->
  download_video env url vn w = (Ok None, w1) ->
  stats w !! "failed" = Some f ->
  process_video env vn url w
  = (Ok false, set_stats (<["failed" := f + 1]> (stats w)) w1).
Proof.
  intros Hs Hd Hf.
  pose proof (keeps_stats_run _ _ _ _ (keeps_download_video env url vn) Hd) as E.
  unfold process_video, try_except, process_video_try, rate_limit, lift.
  unfold bind at 1. rewrite Hs.
  rewrite (bind_eq _ _ _ _ _ Hd).
  rewrite (bind_eq _ _ _ tt _ (stats_incr_Some "failed" f w1 ltac:(congruence))).
  unfold ret. now rewrite E.
Qed.

(** The fetch succeeded: the bucket is chosen by the boolean of
    [capture_random_frames] alone. *)
Lemma process_video_fetched vn url w w1 p b w2 d w3 v :
  sleep env = Ok tt ->
  download_video env url vn w = (Ok (Some p), w1) ->
  capture_random_frames env p vn 5 w1 = (Ok b, w2) ->
  secure_delete_file env p w2 = (Ok d, w3) ->
  stats w !! (if b then "successful" else "partial") = Some v ->
  process_video env vn url w
  = (Ok b, set_stats (<[(if b then "successful" else "partial") := v + 1]>
                        (stats w)) w3).
Proof.
  intros Hs Hd Hc Hx Hv.
  pose proof (keeps_stats_run _ _ _ _ (keeps_download_video env url vn) Hd) as E1.
  pose proof (keeps_stats_run _ _ _ _
                (keeps_capture_random_frames env p vn 5) Hc) as E2.
  pose proof (keeps_stats_run _ _ _ _ (keeps_secure_delete_file env p) Hx) as E3.
  assert (E : stats w3 = stats w) by congruence.
  unfold process_video, try_except, process_video_try, rate_limit, lift.
  unfold bind at 1. rewrite Hs.
  rewrite (bind_eq _ _ _ _ _ Hd), (bind_eq _ _ _ _ _ Hc), (bind_eq _ _ _ _ _ Hx).
  assert (Hi : (if b then stats_incr "successful" else stats_incr "partial") w3
               = (Ok tt, set_stats
                           (<[(if b then "successful" else "partial") := v + 1]>
                              (stats w)) w3)).
  { rewrite <- E in Hv |- *. destruct b; now apply stats_incr_Some. }
  rewrite (bind_eq _ _ _ _ _ Hi). reflexivity.
Qed.

(** An exception in the [try] block leaves the counters as they were. *)
Lemma process_video_try_raise vn url w e w1 :
  process_video_try env vn url w = (Raise e, w1) -> stats w1 = stats w.
Proof.
  unfold process_video_try, rate_limit, lift. unfold bind at 1.
  destruct (sleep env) as [[]|e0]; [| now intros [= _ <-]].
  destruct (never_raises_run _ w (never_download_video env url vn))
    as (o & w1' & Hd).
  pose proof (keeps_stats_run _ _ _ _ (keeps_download_video env url vn) Hd) as E1.
  rewrite (bind_eq _ _ _ _ _ Hd). destruct o as [p|].
  - destruct (never_raises_run _ w1' (never_capture_random_frames env p vn 5))
      as (b & w2 & Hc).
    pose proof (keeps_stats_run _ _ _ _
                  (keeps_capture_random_frames env p vn 5) Hc) as E2.
    destruct (never_raises_run _ w2 (never_secure_delete_file env p))
      as (d & w3 & Hx).
    pose proof (keeps_stats_run _ _ _ _ (keeps_secure_delete_file env p) Hx) as E3.
    rewrite (bind_eq _ _ _ _ _ Hc), (bind_eq _ _ _ _ _ Hx).
    unfold bind at 1.
    destruct ((if b then stats_incr "successful" else stats_incr "partial") w3)
      as [[[]|e1] w4] eqn:Hi; [discriminate |].
    intros [= _ <-].
    assert (w4 = w3) by (destruct b; eapply stats_incr_raise_same; eauto).
    congruence.
  - unfold bind at 1.
    destruct (stats_incr "failed" w1') as [[[]|e1] w4] eqn:Hi; [discriminate |].
    intros [= _ <-]. apply stats_incr_raise_same in Hi. congruence.
Qed.


Lemma stats_incr_Ok k w w' :
  stats_incr k w = (Ok tt, w') -> bumped k (stats w) (stats w') /\ fs w' = fs w.
Proof.
  unfold stats_incr, bumped. destruct (stats w !! k) as [v|] eqn:E; [| discriminate].
  intros [= <-]. simpl. eauto.
Qed.

(** A [try] block that returns has made exactly one increment. *)
Lemma process_video_try_Ok vn url w b w1 :
  process_video_try env vn url w = (Ok b, w1) ->
  exists k, k ∈ buckets /\ bumped k (stats w) (stats w1).
Proof.
  unfold process_video_try, rate_limit, lift. unfold bind at 1.
  destruct (sleep env) as [[]|e0]; [| discriminate].
  destruct (never_raises_run _ w (never_download_video env url vn))
    as (o & w1' & Hd).
  pose proof (keeps_stats_run _ _ _ _ (keeps_download_video env url vn) Hd) as E1.
  rewrite (bind_eq _ _ _ _ _ Hd). destruct o as [p|].
  - destruct (never_raises_run _ w1' (never_capture_random_frames env p vn 5))
      as (c & w2 & Hc).
    pose proof (keeps_stats_run _ _ _ _
                  (keeps_capture_random_frames env p vn 5) Hc) as E2.
    destruct (never_raises_run _ w2 (never_secure_delete_file env p))
      as (d & w3 & Hx).
    pose proof (keeps_stats_run _ _ _ _ (keeps_secure_delete_file env p) Hx) as E3.
    rewrite (bind_eq _ _ _ _ _ Hc), (bind_eq _ _ _ _ _ Hx).
    unfold bind at 1.
    destruct ((if c then stats_incr "successful" else stats_incr "partial") w3)
      as [[[]|e1] w4] eqn:Hi; [| discriminate].
    intros [= _ <-]. replace (stats w) with (stats w3) by congruence.
    destruct c; apply stats_incr_Ok in Hi as [Hi _];
      [exists "successful" | exists "partial"]; split; trivial;
      unfold buckets; set_solver.
  - unfold bind at 1.
    destruct (stats_incr "failed" w1') as [[[]|e1] w4] eqn:Hi; [| discriminate].
    intros [= _ <-]. replace (stats w) with (stats w1') by congruence.
    apply stats_incr_Ok in Hi as [Hi _].
    exists "failed". split; trivial. unfold buckets; set_solver.
Qed.

(** What the [except] clause of lines 183-187 does with an exception. *)
Lemma process_video_caught vn url w e w1 f :
  process_video_try env vn url w = (Raise e, w1) ->
  stats w !! "failed" = Some f ->
  process_video env vn url w
  = (Ok false, set_stats (<["failed" := f + 1]> (stats w)) w1).
Proof.
  intros Hb Hf. pose proof (process_video_try_raise _ _ _ _ _ Hb) as E.
  unfold process_video, try_except. rewrite Hb.
  rewrite (bind_eq _ _ _ tt _ (stats_incr_Some "failed" f w1 ltac:(congruence))).
  unfold ret. now rewrite E.
Qed.

Lemma process_video_returned vn url w b w1 :
  process_video_try env vn url w = (Ok b, w1) ->
  process_video env vn url w = (Ok b, w1).
Proof. intros Hb. unfold process_video, try_except. now rewrite Hb. Qed.

(** With the [failed] counter in the dict no exception leaves
    [process_video]. *)
Lemma process_video_never_raises vn url w :
  is_Some (stats w !! "failed") ->
  exists b w', process_video env vn url w = (Ok b, w').
Proof.
  intros [f Hf].
  destruct (process_video_try env vn url w) as [[b|e] w1] eqn:Hb.
  - rewrite (process_video_returned _ _ _ _ _ Hb). eauto.
  - rewrite (process_video_caught _ _ _ _ _ _ Hb Hf). eauto.
Qed.

(** Every call makes one increment of one bucket. *)
Lemma process_video_one_bucket vn url w :
  is_Some (stats w !! "failed") ->
  exists b w' k,
    process_video env vn url w = (Ok b, w')
    /\ k ∈ buckets /\ bumped k (stats w) (stats w').
Proof.
  intros [f Hf].
  destruct (process_video_try env vn url w) as [[b|e] w1] eqn:Hb.
  - rewrite (process_video_returned _ _ _ _ _ Hb).
    destruct (process_video_try_Ok _ _ _ _ _ Hb) as (k & Hk & Hbump).
    exists b, w1, k. auto.
  - rewrite (process_video_caught _ _ _ _ _ _ Hb Hf).
    exists false, (set_stats (<["failed" := f + 1]> (stats w)) w1), "failed".
    split; [reflexivity |]. split; [unfold buckets; set_solver |].
    exists f. auto.
Qed.

(** ** The counters *)

Lemma bumped_counter_sum k s s' :
  k ∈ buckets -> bumped k s s' -> counter_sum s' = counter_sum s + 1.
Proof.
  intros Hk (v & Hv & ->). unfold counter_sum, buckets in *.
  repeat (apply elem_of_cons in Hk as [-> | Hk]);
    [| | | now apply elem_of_nil in Hk];
    rewrite lookup_insert_eq, Hv;
    repeat (rewrite lookup_insert_ne by discriminate); simpl; lia.
Qed.

Lemma bumped_total k s s' :
  k ∈ buckets -> bumped k s s' -> s' !! "total" = s !! "total".
Proof.
  intros Hk (v & Hv & ->). unfold buckets in Hk.
  apply lookup_insert_ne. intros ->.
  repeat (apply elem_of_cons in Hk as [Hk | Hk]; [discriminate |]).
  now apply elem_of_nil in Hk.
Qed.

Lemma bumped_is_Some k s s' j :
  bumped k s s' -> is_Some (s !! j) -> is_Some (s' !! j).
Proof.
  intros (v & Hv & ->) Hj. destruct (decide (k = j)) as [-> | Hne].
  - rewrite lookup_insert_eq. eauto.
  - now rewrite lookup_insert_ne.
Qed.

End Item.

(** ** The run *)

Section Run.

Context (env : Env).

Lemma as_completed_swallows futures w : as_completed futures w = (Ok tt, w).
Proof.
  induction futures as [|[future vn] rest IH]; [reflexivity |].
  simpl. unfold bind at 1, try_except, bind, lift, ret.
  destruct future; exact IH.
Qed.

Lemma submit_runs {A} (task : M A) w :
  submit task w = (Ok (fst (task w)), snd (task w)).
Proof. unfold submit. now destruct (task w). Qed.

(** A row with a missing or blank link is passed over: nothing is
    submitted for it and the state does not move. *)
Lemma submit_all_blank row rest w :
  blank_link row -> submit_all env (row :: rest) w = submit_all env rest w.
Proof.
  intros [H | (s & H & Hs)]; simpl; unfold row_get; rewrite H;
    unfold bind at 1, ret; unfold bind at 1; simpl.
  - reflexivity.
  - unfold ret. now rewrite Hs.
Qed.

Lemma blank_link_not_dispatchable row :
  blank_link row -> dispatchable row = false.
Proof.
  unfold dispatchable. intros [-> | (s & -> & Hs)]; [reflexivity |].
  now rewrite Hs.
Qed.

(** A row with a link: its item is run, then the rest of the rows,
    whatever the item returned or raised. *)
Lemma submit_all_link row rest w vn s :
  row !! "vimeo_link" = Some (Str s) -> strip s <> "" ->
  row !! "video_number" = Some vn ->
  submit_all env (row :: rest) w
  = let '(future, w1) := process_video env vn s w in
    match submit_all env rest w1 with
    | (Ok futures, w2) => (Ok ((future, vn) :: futures), w2)
    | (Raise e, w2) => (Raise e, w2)
    end.
Proof.
  intros Hl Hs Hv. simpl. unfold row_get. rewrite Hl, Hv.
  unfold bind at 1, ret. unfold bind at 1. simpl. unfold ret.
  destruct (String.eqb_spec (strip s) "") as [E | _]; [contradiction |]. simpl.
  unfold bind at 1. unfold bind at 1. unfold bind at 1.
  rewrite submit_runs. simpl str.
  destruct (process_video env vn s w) as [future w1].
  simpl. unfold bind at 1. unfold bind at 1.
  now destruct (submit_all env rest w1) as [[futures|e] w2].
Qed.

(** The dispatch loop: one future and one bucket increment per kept row. *)
Lemma submit_all_counts rws : forall w r w',
  is_Some (stats w !! "failed") ->
  submit_all env rws w = (r, w') ->
  is_Some (stats w' !! "failed")
  /\ stats w' !! "total" = stats w !! "total"
  /\ forall futures, r = Ok futures ->
       length futures = length (List.filter dispatchable rws)
       /\ counter_sum (stats w')
          = counter_sum (stats w) + Z.of_nat (length futures).
Proof.
  induction rws as [|row rest IH]; intros w r w' Hf.
  - simpl. intros [= <- <-]. split; [trivial | split; [trivial |]].
    intros futs [= <-]. simpl. split; [reflexivity | lia].
  - destruct (row !! "vimeo_link") as [[|s|z|t]|] eqn:Hl.
    + rewrite submit_all_blank by now left.
      intros H. destruct (IH _ _ _ Hf H) as (H1 & H2 & H3).
      simpl. unfold dispatchable at 1. rewrite Hl. auto.
    + destruct (String.eqb_spec (strip s) "") as [E | E].
      * rewrite submit_all_blank by (right; eauto).
        intros H. destruct (IH _ _ _ Hf H) as (H1 & H2 & H3).
        simpl. unfold dispatchable at 1. rewrite Hl, E. auto.
      * destruct (row !! "video_number") as [vn|] eqn:Hv.
        -- rewrite (submit_all_link _ _ _ _ _ Hl E Hv).
           destruct (process_video_one_bucket env vn s w Hf)
             as (b & w1 & k & Hp & Hk & Hb).
           rewrite Hp.
           assert (Hf1 : is_Some (stats w1 !! "failed"))
             by (eapply bumped_is_Some; eauto).
           destruct (submit_all env rest w1) as [r1 w2] eqn:Hr.
           destruct (IH _ _ _ Hf1 Hr) as (H1 & H2 & H3).
           rewrite (bumped_total _ _ _ Hk Hb) in H2.
           rewrite (bumped_counter_sum _ _ _ Hk Hb) in H3.
           destruct r1 as [futs|e]; intros [= <- <-];
             (split; [trivial | split; [trivial |]]);
             intros fs0 [= <-].
           destruct (H3 futs eq_refl) as [H4 H5].
           simpl. unfold dispatchable at 1. rewrite Hl.
           destruct (String.eqb_spec (strip s) "") as [E' | _];
             [contradiction |].
           simpl. split; [now rewrite H4 | lia].
        -- simpl. unfold row_get. rewrite Hl, Hv.
           unfold bind at 1, ret. unfold bind at 1. simpl. unfold ret.
           destruct (String.eqb_spec (strip s) "") as [E' | _];
             [contradiction |].
           simpl. unfold bind at 1, raise.
           intros [= <- <-]. split; [trivial | split; [trivial | discriminate]].
    + simpl. unfold row_get. rewrite Hl.
      unfold bind at 1, ret. unfold bind at 1. simpl. unfold raise.
      intros [= <- <-]. split; [trivial | split; [trivial | discriminate]].
    + simpl. unfold row_get. rewrite Hl.
      unfold bind at 1, ret. unfold bind at 1. simpl. unfold raise.
      intros [= <- <-]. split; [trivial | split; [trivial | discriminate]].
    + simpl. unfold row_get. rewrite Hl. unfold bind at 1, raise.
      intros [= <- <-]. split; [trivial | split; [trivial | discriminate]].
Qed.


(** The end-of-run removal of the scratch directory (lines 248-252). *)
Lemma keeps_final_cleanup :
  keeps_stats
    (try_except
       (let* ex := os_path_exists DOWNLOAD_DIR in
        let* empty := listdir_empty DOWNLOAD_DIR in
        if ex && empty then rmdir env DOWNLOAD_DIR else ret tt)
       (fun _ => ret tt)).
Proof.
  apply keeps_try; [| auto with py].
  apply keeps_bind; [apply keeps_os_path_exists |]. intros ex.
  apply keeps_bind; [apply keeps_listdir_empty |]. intros empty.
  apply keeps_if; [apply keeps_rmdir | apply keeps_ret].
Qed.

(** A run that reaches its summary: what the summary holds. *)
Lemma batch_report csv limit w st w' :
  batch_process_videos env csv limit w = (Ok (Some st), w') ->
  exists df,
    read_csv env csv = Ok df
    /\ "video_number" ∈ columns df /\ "vimeo_link" ∈ columns df
    /\ st = stats w'
    /\ st !! "total" = Some (Z.of_nat (length (rows (apply_limit limit df))))
    /\ counter_sum st
       = Z.of_nat (length (List.filter dispatchable
                             (rows (apply_limit limit df)))).
Proof.
  unfold batch_process_videos. intros H.
  apply bind_Ok_inv in H as ([] & w1 & _ & H).
  apply bind_Ok_inv in H as ([] & w2 & _ & H).
  apply bind_Ok_inv in H as (loaded & w3 & Hload & H).
  unfold try_except, bind, lift, ret in Hload.
  destruct (read_csv env csv) as [df|e] eqn:Hcsv;
    injection Hload as <- <-; [| discriminate].
  exists df. split; [reflexivity |].
  destruct (bool_decide ("video_number" ∈ columns df)) eqn:Hc1;
    [| discriminate].
  destruct (bool_decide ("vimeo_link" ∈ columns df)) eqn:Hc2;
    [| discriminate].
  apply bool_decide_eq_true in Hc1, Hc2. simpl in H.
  apply bind_Ok_inv in H as ([] & w4 & Hset & H). injection Hset as <-.
  apply bind_Ok_inv in H as (futures & w5 & Hsub & H).
  apply bind_Ok_inv in H as ([] & w6 & Hdone & H).
  rewrite as_completed_swallows in Hdone. injection Hdone as <-.
  apply bind_Ok_inv in H as ([] & w7 & Hclean & H).
  apply (keeps_stats_run _ _ _ _ keeps_final_cleanup) in Hclean.
  apply bind_Ok_inv in H as (summary & w8 & Hget & H).
  unfold get_stats in Hget. injection Hget as <- <-.
  unfold ret in H. injection H as <- <-.
  apply submit_all_counts in Hsub as (_ & Ht & Hn);
    [| exists 0; reflexivity].
  destruct (Hn futures eq_refl) as [Hlen Hsum].
  simpl in Ht, Hsum.
  rewrite Hclean, Ht, Hsum, Hlen.
  repeat split; trivial.
Qed.

End Run.

(** ** Sampling positions *)

Lemma range_bounds n i : In i (range n) -> 0 <= i < n.
Proof.
  unfold range. rewrite in_map_iff. intros (k & <- & Hk).
  apply in_seq in Hk. lia.
Qed.

(** For a positive frame count the truncation of [int] is a floor. *)
Lemma evenly_spaced_floor fc n :
  0 <= fc ->
  evenly_spaced fc n = map (fun i => i * fc / n) (range n).
Proof.
  intros Hfc. unfold evenly_spaced. apply map_ext_in. intros i Hi.
  apply range_bounds in Hi. apply Z.quot_div_nonneg; nia.
Qed.

Lemma evenly_spaced_length fc n : length (evenly_spaced fc n) = Z.to_nat n.
Proof.
  unfold evenly_spaced, range.
  now rewrite !List.length_map, List.length_seq.
Qed.

Lemma evenly_spaced_in_range fc n :
  0 < fc -> Forall (fun p => 0 <= p < fc) (evenly_spaced fc n).
Proof.
  intros Hfc. rewrite evenly_spaced_floor by lia.
  apply List.Forall_forall. intros p Hp.
  apply in_map_iff in Hp as (i & <- & Hi). apply range_bounds in Hi.
  split.
  - apply Z.div_pos; nia.
  - apply Z.div_lt_upper_bound; nia.
Qed.

(** With fewer frames than samples the sampling call seeks to the evenly
    spaced positions, and [random.sample] is not consulted. *)
Lemma capture_random_frames_short env p vn n w cap :
  VideoCapture env p (fs w) = Ok cap ->
  isOpened cap = true ->
  0 < frame_count_of cap -> frame_count_of cap < n ->
  capture_random_frames env p vn n w
  = try_except
      (let* _ := ensure_dir_exists env (frame_dir_of vn) in
       let* _ := save_frames env cap (frame_dir_of vn) vn
                   (enumerate 1 (evenly_spaced (frame_count_of cap) n)) in
       ret true)
      (fun _ => ret false) w.
Proof.
  intros Hcap Hopen Hfc Hn.
  unfold capture_random_frames, try_except. fold (frame_dir_of vn).
  unfold bind at 1. rewrite Hcap, Hopen. simpl.
  destruct (Z.leb_spec (frame_count_of cap) 0) as [? | _]; [lia |].
  rewrite (bind_ext (ensure_dir_exists env (frame_dir_of vn)) _
             (fun _ =>
                let* _ := save_frames env cap (frame_dir_of vn) vn
                            (enumerate 1
                               (evenly_spaced (frame_count_of cap) n)) in
                ret true)); [reflexivity |].
  intros _ w1. unfold choose_frame_indices.
  destruct (Z.ltb_spec (frame_count_of cap) n) as [_ | ?]; [| lia].
  reflexivity.
Qed.

(** C7.  When the frame count is positive and smaller than the requested
    number of samples [num_frames], and [num_frames] is at most 2^26 (so
    that every product [i * frame_count] is below 2^53 and the float
    quotient of the code has the integer part of the exact one), the
    positions are the [num_frames] values
    [int(i * frame_count / num_frames)], [i = 0 .. num_frames - 1]: as
    many positions as requested, each an addressable frame, repetitions
    included.  For 3 frames and 5 samples these are 0, 0, 1, 1, 2.
    [capture_random_frames] on such a media ensures the directory of the
    item and then reads and saves exactly these positions, numbered from
    1; whatever [random.sample] would return, the call does the same. *)
Theorem C7_short_media_evenly_spaced env fc n w :
  0 < fc -> fc < n -> n <= 2 ^ 26 ->
  choose_frame_indices env fc n w = (Ok (evenly_spaced fc n), w)
  /\ evenly_spaced fc n = map (fun i => i * fc / n) (range n)
  /\ length (evenly_spaced fc n) = Z.to_nat n
  /\ Forall (fun p => 0 <= p < fc) (evenly_spaced fc n)
  /\ evenly_spaced 3 5 = [0; 0; 1; 1; 2]
  /\ forall p vn cap,
       VideoCapture env p (fs w) = Ok cap ->
       isOpened cap = true -> frame_count_of cap = fc ->
       capture_random_frames env p vn n w
       = try_except
           (let* _ := ensure_dir_exists env (frame_dir_of vn) in
            let* _ := save_frames env cap (frame_dir_of vn) vn
                        (enumerate 1 (evenly_spaced fc n)) in
            ret true)
           (fun _ => ret false) w
       /\ forall rs,
            capture_random_frames (with_random_sample rs env) p vn n w
            = capture_random_frames env p vn n w.
Proof.
  intros Hfc Hn _. repeat split.
  - unfold choose_frame_indices.
    now destruct (Z.ltb_spec fc n) as [_ | ?]; [| lia].
  - apply evenly_spaced_floor. lia.
  - apply evenly_spaced_length.
  - now apply evenly_spaced_in_range.
  - subst fc. now apply capture_random_frames_short.
  - intros rs. subst fc.
    rewrite (capture_random_frames_short (with_random_sample rs env)
               p vn n w cap) by assumption.
    now rewrite (capture_random_frames_short env p vn n w cap) by assumption.
Qed.

Lemma C7_witness :
  choose_frame_indices Scenario.short_clip_env 3 5 Scenario.start
  = (Ok [0; 0; 1; 1; 2], Scenario.start)
  /\ capture_random_frames Scenario.short_clip_env
       "temp_downloads/1_temp.mp4" (Num 1) 5 Scenario.start
     = (Ok true,
        set_fs {[ "final-dataset/1"; "final-dataset/1/1_1.jpg";
                  "final-dataset/1/1_2.jpg"; "final-dataset/1/1_3.jpg";
                  "final-dataset/1/1_4.jpg"; "final-dataset/1/1_5.jpg" ]}
          Scenario.start).
Proof.
  destruct (C7_short_media_evenly_spaced Scenario.short_clip_env 3 5
              Scenario.start ltac:(lia) ltac:(lia) ltac:(lia))
    as (H1 & _ & _ & _ & _ & H6).
  split; [exact H1 |].
  destruct (H6 "temp_downloads/1_temp.mp4" (Num 1)
              (Scenario.short_clip "temp_downloads/1_temp.mp4")
              eq_refl eq_refl eq_refl) as [H _].
  rewrite H. vm_compute. reflexivity.
Defined.

(** ** The claims about the run *)

(** C9.  When the table read from the manifest lacks [video_number] or
    [vimeo_link], the run is over after the two directories have been
    ensured: it is the same computation for every list of rows, it
    produces no summary, and the counters are not touched. *)
Theorem C9_missing_column_aborts env csv limit w df :
  read_csv env csv = Ok df ->
  "video_number" ∉ columns df \/ "vimeo_link" ∉ columns df ->
  batch_process_videos env csv limit w
  = (let* _ := ensure_dir_exists env DOWNLOAD_DIR in
     let* _ := ensure_dir_exists env OUTPUT_DIR in
     ret None) w
  /\ (forall st, fst (batch_process_videos env csv limit w) <> Ok (Some st))
  /\ stats (snd (batch_process_videos env csv limit w)) = stats w.
Proof.
  intros Hcsv Hcol.
  assert (E : batch_process_videos env csv limit w
              = (let* _ := ensure_dir_exists env DOWNLOAD_DIR in
                 let* _ := ensure_dir_exists env OUTPUT_DIR in
                 ret None) w).
  { unfold batch_process_videos.
    apply bind_ext. intros _ w1. apply bind_ext. intros _ w2.
    unfold bind at 1, try_except, lift. unfold bind at 1. rewrite Hcsv.
    unfold ret at 1.
    destruct Hcol as [Hc | Hc]; rewrite (bool_decide_eq_false_2 _ Hc);
      [reflexivity | now rewrite orb_true_r]. }
  rewrite E. split; [reflexivity |]. split.
  - intros st. unfold bind at 1.
    destruct (ensure_dir_exists env DOWNLOAD_DIR w) as [[[]|e] w1];
      [| discriminate].
    unfold bind.
    destruct (ensure_dir_exists env OUTPUT_DIR w1) as [[[]|e] w2]; discriminate.
  - assert (K : keeps_stats
                  (let* _ := ensure_dir_exists env DOWNLOAD_DIR in
                   let* _ := ensure_dir_exists env OUTPUT_DIR in
                   @ret (option (gmap string Z)) None)).
    { apply keeps_bind; [apply keeps_ensure_dir_exists |]. intros _.
      apply keeps_bind; [apply keeps_ensure_dir_exists |]. intros _.
      apply keeps_ret. }
    apply K.
Qed.

Lemma C9_witness :
  batch_process_videos Scenario.no_link_column_env "final-list.csv" None
    Scenario.start
  = (Ok None, {| fs := {["temp_downloads"; "final-dataset"]}; stats := ∅ |}).
Proof.
  destruct (C9_missing_column_aborts Scenario.no_link_column_env
              "final-list.csv" None Scenario.start Scenario.no_link_column
              eq_refl) as [H _].
  - right. apply (bool_decide_unpack _). vm_compute. exact I.
  - rewrite H. vm_compute. reflexivity.
Defined.

(** C4.  Every call of [process_video] on a dict that has the [failed]
    counter returns without raising and has added one to exactly one of
    [successful], [partial], [failed], leaving every other entry as it
    was, on the fetch-failure path and on the exception path as on the
    others; hence a run that reaches its summary reports
    [successful + partial + failed] equal to the number of rows that were
    dispatched. *)
Theorem C4_one_bucket_per_item env :
  (forall vn url w,
     is_Some (stats w !! "failed") ->
     exists b w' k,
       process_video env vn url w = (Ok b, w')
       /\ k ∈ buckets /\ bumped k (stats w) (stats w')
       /\ counter_sum (stats w') = counter_sum (stats w) + 1)
  /\ (forall csv limit w st w',
        batch_process_videos env csv limit w = (Ok (Some st), w') ->
        exists df,
          read_csv env csv = Ok df
          /\ counter_sum st
             = Z.of_nat (length (List.filter dispatchable
                                   (rows (apply_limit limit df))))).
Proof.
  split.
  - intros vn url w Hf.
    destruct (process_video_one_bucket env vn url w Hf)
      as (b & w' & k & Hp & Hk & Hb).
    exists b, w', k. repeat split; trivial.
    now apply (bumped_counter_sum k).
  - intros csv limit w st w' H.
    destruct (batch_report env _ _ _ _ _ H) as (df & Hcsv & _ & _ & _ & _ & Hs).
    eauto.
Qed.

Lemma C4_witness :
  (exists b w' k,
     process_video Scenario.three_rows_env (Num 2) "https://vimeo.com/B"
       (Scenario.running 3) = (Ok b, w')
     /\ k ∈ buckets
     /\ bumped k (stats (Scenario.running 3)) (stats w')
     /\ counter_sum (stats w') = counter_sum (stats (Scenario.running 3)) + 1)
  /\ (exists df,
        read_csv Scenario.three_rows_env "final-list.csv" = Ok df
        /\ counter_sum
             {[ "total" := 3; "successful" := 2; "partial" := 0; "failed" := 1 ]}
           = Z.of_nat (length (List.filter dispatchable
                                 (rows (apply_limit None df))))).
Proof.
  destruct (C4_one_bucket_per_item Scenario.three_rows_env) as [H1 H2].
  split.
  - apply H1. exists 0. reflexivity.
  - apply (H2 "final-list.csv" None Scenario.start _
              (snd (batch_process_videos Scenario.three_rows_env
                      "final-list.csv" None Scenario.start))).
    vm_compute. reflexivity.
Defined.

(** C3 as stated fails: with one row that has a link, one row without a
    link and one row with a blank link, the summary reports a total of 3
    although a single item was dispatched. *)
Lemma C3_counterexample :
  exists st w',
    batch_process_videos Scenario.blank_rows_env "final-list.csv" None
      Scenario.start = (Ok (Some st), w')
    /\ st !! "total" = Some 3
    /\ length (List.filter dispatchable (rows Scenario.blank_rows)) = 1%nat
    /\ st !! "total"
       <> Some (Z.of_nat (length (List.filter dispatchable
                                    (rows Scenario.blank_rows)))).
Proof.
  eexists _, _. split; [vm_compute; reflexivity |].
  split; [reflexivity |]. split; [reflexivity |].
  vm_compute. discriminate.
Qed.

(** C3, amended.  The total of the summary is the number of rows of the
    manifest once the limit is applied, rows without a link included.  A
    row whose link is missing or blank is not dispatched: the dispatch
    loop passes over it without touching the state, so that it is counted
    in none of the three buckets, which add up to the number of rows that
    have a link. *)
Theorem C3_total_counts_rows env csv limit w st w' :
  batch_process_videos env csv limit w = (Ok (Some st), w') ->
  exists df,
    read_csv env csv = Ok df
    /\ st !! "total" = Some (Z.of_nat (length (rows (apply_limit limit df))))
    /\ counter_sum st
       = Z.of_nat (length (List.filter dispatchable
                             (rows (apply_limit limit df))))
    /\ forall row rest w0,
         blank_link row ->
         dispatchable row = false
         /\ submit_all env (row :: rest) w0 = submit_all env rest w0.
Proof.
  intros H.
  destruct (batch_report env _ _ _ _ _ H) as (df & Hcsv & _ & _ & _ & Ht & Hs).
  exists df. repeat split; trivial.
  - now apply blank_link_not_dispatchable.
  - now apply submit_all_blank.
Qed.

Lemma C3_witness :
  exists df,
    read_csv Scenario.blank_rows_env "final-list.csv" = Ok df
    /\ ({[ "total" := 3; "successful" := 1; "partial" := 0; "failed" := 0 ]}
        : gmap string Z) !! "total"
       = Some (Z.of_nat (length (rows (apply_limit None df))))
    /\ counter_sum
         {[ "total" := 3; "successful" := 1; "partial" := 0; "failed" := 0 ]}
       = Z.of_nat (length (List.filter dispatchable
                             (rows (apply_limit None df))))
    /\ forall row rest w0,
         blank_link row ->
         dispatchable row = false
         /\ submit_all Scenario.blank_rows_env (row :: rest) w0
            = submit_all Scenario.blank_rows_env rest w0.
Proof.
  apply (C3_total_counts_rows Scenario.blank_rows_env "final-list.csv" None
           Scenario.start _
           (snd (batch_process_videos Scenario.blank_rows_env
                   "final-list.csv" None Scenario.start))).
  vm_compute. reflexivity.
Defined.

(** ** The claims about one item *)

Section ItemClaims.

Context (env : Env).

(** A failed fetch makes [download_video] return [None]; the files are as
    yt-dlp left them. *)
Lemma download_video_failed url vn w :
  fetch_failed env url vn w ->
  download_video env url vn w
  = (Ok None, set_fs (fst (subprocess_run env url (temp_path vn) (fs w))) w).
Proof.
  unfold fetch_failed, download_video, try_except, run_yt_dlp.
  fold (temp_path vn). unfold bind at 1.
  destruct (subprocess_run env url (temp_path vn) (fs w)) as [f [rc|e]];
    simpl; [| reflexivity].
  intros [Hrc | Hex]; unfold bind, os_path_exists, ret; simpl.
  - destruct (Z.eqb_spec rc 0); [contradiction | reflexivity].
  - rewrite (bool_decide_eq_false_2 _ Hex). now rewrite andb_false_r.
Qed.

End ItemClaims.

(** C5 as stated fails: yt-dlp exits with status 1 after it has written
    the output file; the fetch is reported as failed, the item is counted
    as failed, and the temporary file is still there when [process_video]
    has returned. *)
Lemma C5_counterexample :
  let w := Scenario.running 1 in
  let r := process_video Scenario.broken_fetch_env (Num 7)
             "https://vimeo.com/G" w in
  fetch_failed Scenario.broken_fetch_env "https://vimeo.com/G" (Num 7) w
  /\ download_video Scenario.broken_fetch_env "https://vimeo.com/G" (Num 7) w
     = (Ok None, set_fs ({["temp_downloads/7_temp.mp4"]} ∪ fs w) w)
  /\ fst r = Ok false
  /\ stats (snd r) !! "failed" = Some 1
  /\ "temp_downloads/7_temp.mp4" ∈ fs (snd r).
Proof.
  cbv zeta. split; [left; vm_compute; discriminate |].
  split; [vm_compute; reflexivity |].
  split; [vm_compute; reflexivity |].
  split; [vm_compute; reflexivity |].
  apply (bool_decide_unpack _). vm_compute. exact I.
Qed.

(** C5, amended.  An item whose fetch reports failure (yt-dlp raised,
    exited with a non-zero status, or left no output file) is counted as
    failed: [process_video] returns [False] after one increment of
    [failed].  It removes nothing on that path: the files are exactly
    those yt-dlp left, so that the temporary file is absent when the
    failure is a missing output file and present when yt-dlp left one. *)
Theorem C5_failed_fetch_counts_failed env vn url w f :
  sleep env = Ok tt ->
  fetch_failed env url vn w ->
  stats w !! "failed" = Some f ->
  let left := fst (subprocess_run env url (temp_path vn) (fs w)) in
  download_video env url vn w = (Ok None, set_fs left w)
  /\ process_video env vn url w
     = (Ok false, {| fs := left; stats := <["failed" := f + 1]> (stats w) |})
  /\ (temp_path vn ∈ fs (snd (process_video env vn url w))
      <-> temp_path vn ∈ left).
Proof.
  intros Hs Hfail Hf left.
  pose proof (download_video_failed env url vn w Hfail) as Hd.
  fold left in Hd.
  pose proof (process_video_fetch_failed env vn url w _ f Hs Hd Hf) as Hp.
  split; [exact Hd |]. split; [exact Hp |].
  now rewrite Hp.
Qed.

Lemma C5_witness :
  process_video Scenario.three_rows_env (Num 2) "https://vimeo.com/B"
    (Scenario.running 3)
  = (Ok false,
     {| fs := {["temp_downloads"; "final-dataset"]};
        stats := <["failed" := 1]> (fresh_stats 3) |}).
Proof.
  destruct (C5_failed_fetch_counts_failed Scenario.three_rows_env (Num 2)
              "https://vimeo.com/B" (Scenario.running 3) 0 eq_refl)
    as (_ & H & _).
  - left. vm_compute. discriminate.
  - reflexivity.
  - exact H.
Defined.



Section Sampling.

Context (env : Env).

Hypothesis makedirs_ok : forall d f, os_makedirs env d f = Ok tt.
Hypothesis sample_ok : forall fc n, exists l, random_sample env fc n = Ok l.
Hypothesis imwrite_ok : forall q f, exists r, imwrite env q f = Ok r.

Lemma ensure_dir_exists_completes d w :
  exists w', ensure_dir_exists env d w = (Ok tt, w').
Proof.
  unfold ensure_dir_exists, bind, os_path_exists.
  destruct (bool_decide (d ∈ fs w)); simpl; [unfold ret; eauto |].
  unfold makedirs. rewrite makedirs_ok. eauto.
Qed.




End Sampling.

(** The sampling call gives up before it creates anything when the media
    does not open or reports no frame. *)
Lemma capture_random_frames_no_frames env p vn n w cap :
  VideoCapture env p (fs w) = Ok cap ->
  frame_count_of cap <= 0 ->
  capture_random_frames env p vn n w = (Ok false, w).
Proof.
  intros Hcap Hfc.
  unfold capture_random_frames, try_except. unfold bind at 1.
  rewrite Hcap. destruct (isOpened cap); simpl; [| reflexivity].
  now destruct (Z.leb_spec (frame_count_of cap) 0) as [_ | ?]; [| lia].
Qed.

(** C2 as stated fails: the fetch succeeds, the media opens and reports a
    frame count of 0; the sampling call returns [False] without creating
    anything, but the item is counted as partial, not as failed. *)
Lemma C2_counterexample :
  let w := Scenario.running 1 in
  let r := process_video Scenario.no_frames_env (Num 1)
             "https://vimeo.com/A" w in
  fst (download_video Scenario.no_frames_env "https://vimeo.com/A" (Num 1) w)
  = Ok (Some "temp_downloads/1_temp.mp4")
  /\ frame_count_of (Scenario.no_frames "temp_downloads/1_temp.mp4") = 0
  /\ fst r = Ok false
  /\ stats (snd r) !! "failed" = Some 0
  /\ stats (snd r) !! "partial" = Some 1
  /\ "final-dataset/1" ∉ fs (snd r).
Proof.
  cbv zeta. repeat (split; [vm_compute; reflexivity |]).
  apply (bool_decide_unpack _). vm_compute. exact I.
Qed.

(** C2, amended.  When the fetch of an item succeeds and its media
    reports a non-positive frame count, the sampling call fails entirely:
    it returns [False] and leaves the state as it found it, so that no
    sample is written and no output directory is created.  The item is
    then counted in the [partial] bucket. *)
Theorem C2_no_frames_counts_partial env vn url w w1 p cap k :
  sleep env = Ok tt ->
  download_video env url vn w = (Ok (Some p), w1) ->
  VideoCapture env p (fs w1) = Ok cap ->
  frame_count_of cap <= 0 ->
  stats w !! "partial" = Some k ->
  capture_random_frames env p vn 5 w1 = (Ok false, w1)
  /\ exists w2,
       process_video env vn url w = (Ok false, w2)
       /\ stats w2 = <["partial" := k + 1]> (stats w)
       /\ fs w2 = fs (snd (secure_delete_file env p w1)).
Proof.
  intros Hs Hd Hcap Hfc Hk.
  pose proof (capture_random_frames_no_frames env p vn 5 w1 cap Hcap Hfc) as Hc.
  split; [exact Hc |].
  destruct (never_raises_run _ w1 (never_secure_delete_file env p))
    as (d & w3 & Hx).
  rewrite (process_video_fetched env vn url w w1 p false w1 d w3 k Hs Hd Hc Hx Hk).
  eexists. split; [reflexivity |]. rewrite Hx. split; reflexivity.
Qed.

Lemma C2_witness :
  exists w2,
    process_video Scenario.no_frames_env (Num 1) "https://vimeo.com/A"
      (Scenario.running 1) = (Ok false, w2)
    /\ stats w2 = <["partial" := 1]> (fresh_stats 1)
    /\ fs w2 = {["temp_downloads"; "final-dataset"]}.
Proof.
  destruct (C2_no_frames_counts_partial Scenario.no_frames_env (Num 1)
              "https://vimeo.com/A" (Scenario.running 1)
              (set_fs ({["temp_downloads/1_temp.mp4"]} ∪ fs (Scenario.running 1))
                      (Scenario.running 1))
              "temp_downloads/1_temp.mp4"
              (Scenario.no_frames "temp_downloads/1_temp.mp4") 0
              eq_refl) as (_ & w2 & H1 & H2 & H3).
  - vm_compute. reflexivity.
  - reflexivity.
  - simpl. lia.
  - reflexivity.
  - exists w2. split; [exact H1 |]. split; [exact H2 |].
    rewrite H3. vm_compute. reflexivity.
Defined.




(** ** Cleanup *)

Section Cleanup.

Context (env : Env).

Lemma secure_delete_file_absent p w :
  p ∉ fs w -> secure_delete_file env p w = (Ok false, w).
Proof.
  intros H. unfold secure_delete_file, try_except, bind, os_path_exists.
  now rewrite (bool_decide_eq_false_2 _ H).
Qed.

Lemma secure_delete_file_true p w w1 :
  secure_delete_file env p w = (Ok true, w1) -> p ∉ fs w1.
Proof.
  unfold secure_delete_file, try_except, bind, os_path_exists, remove, ret.
  destruct (bool_decide (p ∈ fs w)); [| discriminate].
  destruct (os_remove env p (fs w)); [| discriminate].
  intros [= E]. subst w1. simpl. rewrite elem_of_difference.
  intros [_ Hp]. apply Hp. now apply elem_of_singleton.
Qed.

Lemma same_outcome_bind_same {A B} (m : M A) (k k' : A -> M B) w :
  (forall a w1, same_outcome (k a w1) (k' a w1)) ->
  same_outcome (bind m k w) (bind m k' w).
Proof.
  intros H. unfold bind. destruct (m w) as [[a|e] w1]; [apply H |].
  now split.
Qed.

Lemma same_outcome_try {A} (m m' : M A) (h : exn -> M A) w :
  same_outcome (m w) (m' w) ->
  (forall e w1 w1', stats w1 = stats w1' -> same_outcome (h e w1) (h e w1')) ->
  same_outcome (try_except m h w) (try_except m' h w).
Proof.
  intros [H1 H2] Hh. unfold try_except.
  destruct (m w) as [[a|e] w1], (m' w) as [[a'|e'] w1']; simpl in *;
    try discriminate.
  - now split.
  - replace e' with e by congruence. now apply Hh.
Qed.

Lemma same_outcome_stats_incr k w w' :
  stats w = stats w' -> same_outcome (stats_incr k w) (stats_incr k w').
Proof.
  intros H. unfold stats_incr, same_outcome. rewrite <- H.
  destruct (stats w !! k); simpl; [| auto]. now rewrite H.
Qed.

Lemma same_outcome_incr_ret {A} k (a : A) w w' :
  stats w = stats w' ->
  same_outcome ((let* _ := stats_incr k in ret a) w)
               ((let* _ := stats_incr k in ret a) w').
Proof.
  intros H. destruct (same_outcome_stats_incr k w w' H) as [H1 H2].
  unfold bind, same_outcome.
  destruct (stats_incr k w) as [[[]|e] w1], (stats_incr k w') as [[[]|e'] w1'];
    simpl in *; try discriminate; split; simpl; congruence.
Qed.

(** The value and the effect on the files of the cleanup are lost on what
    follows it, as long as that looks at the counters only. *)
Lemma same_outcome_after_cleanup {B} rm p (k : M B) w :
  (forall w1 w1', stats w1 = stats w1' -> same_outcome (k w1) (k w1')) ->
  same_outcome
    (bind (secure_delete_file (with_os_remove rm env) p) (fun _ => k) w)
    (bind (secure_delete_file env p) (fun _ => k) w).
Proof.
  intros Hk.
  destruct (never_raises_run _ w
              (never_secure_delete_file (with_os_remove rm env) p))
    as (d' & w1' & H').
  destruct (never_raises_run _ w (never_secure_delete_file env p))
    as (d & w1 & H).
  rewrite (bind_eq _ _ _ _ _ H'), (bind_eq _ _ _ _ _ H). apply Hk.
  rewrite (keeps_stats_run _ _ _ _
             (keeps_secure_delete_file (with_os_remove rm env) p) H').
  now rewrite (keeps_stats_run _ _ _ _ (keeps_secure_delete_file env p) H).
Qed.

(** Whatever [os.remove] does, the item returns the same and is counted
    in the same bucket. *)
Lemma process_video_ignores_cleanup rm vn url w :
  same_outcome (process_video (with_os_remove rm env) vn url w)
               (process_video env vn url w).
Proof.
  unfold process_video. apply same_outcome_try.
  - unfold process_video_try.
    change (rate_limit (with_os_remove rm env)) with (rate_limit env).
    apply same_outcome_bind_same. intros _ w0.
    change (download_video (with_os_remove rm env) url vn)
      with (download_video env url vn).
    apply same_outcome_bind_same. intros [p|] w1; [| now split].
    change (capture_random_frames (with_os_remove rm env) p vn 5)
      with (capture_random_frames env p vn 5).
    apply same_outcome_bind_same. intros b w2.
    apply same_outcome_after_cleanup. intros w3 w3' E.
    destruct b; now apply same_outcome_incr_ret.
  - intros e w1 w1' E. now apply same_outcome_incr_ret.
Qed.

End Cleanup.

(** C8.  [secure_delete_file] never raises: an error of [os.remove] ends
    in the result [False].  It leaves the counters alone.  After a call
    that removed the file, the path is gone and a second call returns
    [False] and changes nothing, as does any call on a path that does not
    exist.  Whatever [os.remove] does, [process_video] returns the same
    and leaves the same counters. *)
Theorem C8_cleanup_idempotent_total env p w :
  (exists b w1,
     secure_delete_file env p w = (Ok b, w1)
     /\ stats w1 = stats w
     /\ (exists b2 w2, secure_delete_file env p w1 = (Ok b2, w2))
     /\ (b = true ->
         (p ∉ fs w1) /\ secure_delete_file env p w1 = (Ok false, w1)))
  /\ (p ∉ fs w -> secure_delete_file env p w = (Ok false, w))
  /\ (forall rm vn url,
        same_outcome (process_video (with_os_remove rm env) vn url w)
                     (process_video env vn url w)).
Proof.
  split; [| split].
  - destruct (never_raises_run _ w (never_secure_delete_file env p))
      as (b & w1 & H).
    exists b, w1. split; [exact H |].
    split; [exact (keeps_stats_run _ _ _ _ (keeps_secure_delete_file env p) H) |].
    split; [apply never_raises_run, never_secure_delete_file |].
    intros ->. pose proof (secure_delete_file_true env p w w1 H) as Hp.
    split; [exact Hp | now apply secure_delete_file_absent].
  - apply secure_delete_file_absent.
  - intros rm vn url. apply process_video_ignores_cleanup.
Qed.

Lemma C8_witness :
  secure_delete_file Scenario.three_rows_env "temp_downloads/1_temp.mp4"
    Scenario.start = (Ok false, Scenario.start).
Proof.
  destruct (C8_cleanup_idempotent_total Scenario.three_rows_env
              "temp_downloads/1_temp.mp4" Scenario.start) as (_ & H & _).
  apply H. apply (bool_decide_unpack _). vm_compute. exact I.
Defined.

(** * Further properties of the pipeline *)

(** ** Directories and downloads *)

(** X1.  For a directory that is a single path component (no slash, not
    the empty name, [.] or [..]), as the two directories of the run are:
    [ensure_dir_exists] does nothing, and does not call [os.makedirs],
    when the path exists.  When it returns, the path exists, no other path
    has appeared or gone and the counters are as before.  It raises only
    the exception of [os.makedirs] on a path that did not exist, and then
    nothing has changed. *)
Theorem X1_ensure_dir_exists env d w :
  plain_name d = true ->
  (d ∈ fs w -> ensure_dir_exists env d w = (Ok tt, w))
  /\ (forall w',
        ensure_dir_exists env d w = (Ok tt, w') ->
        (d ∈ fs w') /\ fs w' = {[d]} ∪ fs w /\ stats w' = stats w)
  /\ (forall e w',
        ensure_dir_exists env d w = (Raise e, w') ->
        w' = w /\ (d ∉ fs w) /\ os_makedirs env d (fs w) = Raise e).
Proof.
  intros _.
  unfold ensure_dir_exists, bind, os_path_exists, makedirs, ret.
  destruct (decide (d ∈ fs w)) as [Hin | Hout].
  - rewrite (bool_decide_eq_true_2 _ Hin). simpl.
    split; [reflexivity |]. split.
    + intros w' [= <-]. split; [exact Hin |]. split; [| reflexivity].
      apply set_eq. intros x. rewrite elem_of_union, elem_of_singleton.
      split; [auto | intros [-> | H]; trivial].
    + discriminate.
  - rewrite (bool_decide_eq_false_2 _ Hout). simpl.
    split; [contradiction |].
    destruct (os_makedirs env d (fs w)) as [[]|e0]; split.
    + intros w' [= <-]. simpl. split; [| split; reflexivity].
      apply elem_of_union_l. now apply elem_of_singleton.
    + discriminate.
    + discriminate.
    + intros e w' [= <- <-]. auto.
Qed.

Lemma X1_witness :
  ensure_dir_exists Scenario.three_rows_env DOWNLOAD_DIR (Scenario.running 3)
  = (Ok tt, Scenario.running 3).
Proof.
  destruct (X1_ensure_dir_exists Scenario.three_rows_env DOWNLOAD_DIR
              (Scenario.running 3) eq_refl) as [H _].
  apply H. apply (bool_decide_unpack _). vm_compute. exact I.
Defined.

(** What [download_video] returns, case by case. *)
Lemma download_video_cases env url vn w :
  exists o w',
    download_video env url vn w = (Ok o, w')
    /\ fs w' = fst (subprocess_run env url (temp_path vn) (fs w))
    /\ stats w' = stats w
    /\ (o = Some (temp_path vn)
        /\ (temp_path vn ∈ fs w')
        /\ snd (subprocess_run env url (temp_path vn) (fs w)) = Ok 0
        \/ o = None /\ fetch_failed env url vn w).
Proof.
  unfold download_video, try_except, run_yt_dlp, fetch_failed.
  fold (temp_path vn). unfold bind at 1.
  destruct (subprocess_run env url (temp_path vn) (fs w)) as [f [rc|e]];
    simpl; [| eexists _, _; split; [reflexivity |]; auto].
  unfold bind, os_path_exists, ret. simpl.
  destruct (Z.eqb_spec rc 0) as [-> | Hrc]; simpl.
  - destruct (decide (temp_path vn ∈ f)) as [Hin | Hout].
    + rewrite (bool_decide_eq_true_2 _ Hin).
      eexists _, _. split; [reflexivity |]. simpl. auto 6.
    + rewrite (bool_decide_eq_false_2 _ Hout).
      eexists _, _. split; [reflexivity |]. simpl. auto 6.
  - eexists _, _. split; [reflexivity |]. simpl. auto 6.
Qed.

(** X2.  [download_video] never raises and never touches the counters.  It
    returns the temporary path of the item exactly when yt-dlp exited with
    status 0 and the file is there afterwards; in every other case it
    returns [None].  The files are those yt-dlp left. *)
Theorem X2_download_video_result env url vn w :
  exists o w',
    download_video env url vn w = (Ok o, w')
    /\ fs w' = fst (subprocess_run env url (temp_path vn) (fs w))
    /\ stats w' = stats w
    /\ (o = Some (temp_path vn)
        /\ (temp_path vn ∈ fs w')
        /\ snd (subprocess_run env url (temp_path vn) (fs w)) = Ok 0
        \/ o = None /\ fetch_failed env url vn w).
Proof. apply download_video_cases. Qed.

(** X9.  [secure_delete_file] returns [True] exactly when the path existed
    and [os.remove] did not raise; the path is then the only one that is
    gone.  In every other case it returns [False] and the files are as
    before. *)
Theorem X9_secure_delete_file_result env p w :
  exists b w',
    secure_delete_file env p w = (Ok b, w')
    /\ stats w' = stats w
    /\ (b = true <-> (p ∈ fs w) /\ os_remove env p (fs w) = Ok tt)
    /\ fs w' = (if b then fs w ∖ {[p]} else fs w).
Proof.
  unfold secure_delete_file, try_except, bind, os_path_exists, remove, ret.
  destruct (decide (p ∈ fs w)) as [Hin | Hout].
  - rewrite (bool_decide_eq_true_2 _ Hin).
    destruct (os_remove env p (fs w)) as [[]|e]; eexists _, _;
      (split; [reflexivity |]); simpl; (split; [reflexivity |]);
      (split; [| reflexivity]).
    + tauto.
    + split; [discriminate | intros [_ ?]; discriminate].
  - rewrite (bool_decide_eq_false_2 _ Hout).
    eexists _, _. split; [reflexivity |]. simpl. split; [reflexivity |].
    split; [| reflexivity]. split; [discriminate | tauto].
Qed.

(** ** The paths of an item *)

Lemma string_length_app (s t : string) :
  String.length (s +:+ t) = (String.length s + String.length t)%nat.
Proof. induction s as [|a s IH]; simpl; [reflexivity | now rewrite IH]. Qed.

Lemma string_app_assoc (s t u : string) :
  s +:+ t +:+ u = (s +:+ t) +:+ u.
Proof.
  induction s as [|a s IH]; [reflexivity |].
  change (String a (s +:+ t +:+ u) = String a ((s +:+ t) +:+ u)).
  now rewrite IH.
Qed.

Lemma string_app_inj_r (t s s' : string) : s +:+ t = s' +:+ t -> s = s'.
Proof.
  revert s'. induction s as [|a s IH]; intros [|a' s'] H.
  - reflexivity.
  - apply (f_equal String.length) in H.
    rewrite !string_length_app in H. simpl in H. lia.
  - apply (f_equal String.length) in H.
    rewrite !string_length_app in H. simpl in H. lia.
  - injection H as -> H. f_equal. now apply IH.
Qed.

Lemma os_path_join_relative a b :
  (forall t, b <> String "/" t) -> os_path_join a b = a +:+ "/" +:+ b.
Proof.
  intros H. unfold os_path_join. destruct b as [|c b]; [reflexivity |].
  destruct (Ascii.ascii_dec c "/") as [-> | Hc]; [now destruct (H b) |].
  destruct c as [[] [] [] [] [] [] [] []]; try reflexivity. now destruct Hc.
Qed.

Lemma text_prefix_no_slash (text suffix : string) t :
  (forall u, text <> String "/" u) -> (forall u, suffix <> String "/" u) ->
  text +:+ suffix <> String "/" t.
Proof.
  intros Ht Hs. destruct text as [|c r]; [apply Hs |].
  intros [= -> _]. now apply (Ht r).
Qed.

Lemma plain_name_relative s t : plain_name s = true -> s <> String "/" t.
Proof.
  unfold plain_name. intros H ->. simpl in H. discriminate.
Qed.

Lemma pretty_N_go_numeral x : forall s,
  numeral_chars s = true -> s <> "" \/ x <> 0%N ->
  numeral_chars (pretty_N_go x s) = true /\ pretty_N_go x s <> "".
Proof.
  induction (N.lt_wf_0 x) as [x _ IH]. intros s Hs Hne.
  destruct (N.eq_dec x 0%N) as [-> | Hx].
  - rewrite pretty_N_go_0. split; [exact Hs |]. now destruct Hne.
  - rewrite pretty_N_go_step by lia. apply IH; [apply N.div_lt; lia | |].
    + simpl. rewrite Hs, andb_true_r. unfold pretty_N_char.
      repeat case_match; reflexivity.
    + left. discriminate.
Qed.

Lemma pretty_Z_numeral (z : Z) :
  numeral_chars (pretty z) = true /\ pretty z <> "".
Proof.
  assert (P : forall q : positive,
             numeral_chars (pretty q) = true /\ pretty q <> "").
  { intros q. unfold pretty, pretty_positive, pretty, pretty_N.
    case_decide; [discriminate |].
    apply pretty_N_go_numeral; [reflexivity | now right]. }
  destruct z as [|q|q].
  - split; [reflexivity | discriminate].
  - apply P.
  - destruct (P q) as [H1 _]. split; [| discriminate].
    change (pretty (Z.neg q)) with ("-" +:+ pretty q). simpl. exact H1.
Qed.

Lemma numeral_chars_no_slash s : numeral_chars s = true -> has_slash s = false.
Proof.
  induction s as [|a s IH]; simpl; [reflexivity |].
  intros H. apply andb_true_iff in H as [Ha Hs]. rewrite (IH Hs), orb_false_r.
  destruct (Ascii.eqb_spec a "/") as [-> | _]; [discriminate | reflexivity].
Qed.

Lemma numeral_plain s : numeral_chars s = true -> s <> "" -> plain_name s = true.
Proof.
  intros H Hne. unfold plain_name.
  rewrite (numeral_chars_no_slash s H). simpl.
  destruct (String.eqb_spec s "") as [-> | _]; [contradiction |]. simpl.
  destruct (String.eqb_spec s ".") as [-> | _]; [discriminate |]. simpl.
  destruct (String.eqb_spec s "..") as [-> | _]; [discriminate |].
  reflexivity.
Qed.

Lemma Num_plain z : plain_name (str (Num z)) = true.
Proof. destruct (pretty_Z_numeral z). now apply numeral_plain. Qed.

(** X3.  A video number whose text is a single path component (no slash,
    not empty, not [.] or [..]: an integer such as 7, or a float,
    formatted as [1.0]) is downloaded to [temp_downloads/<text>_temp.mp4],
    and its sample [i] is written to
    [final-dataset/<text>/<text>_<i>.jpg], so that different sample
    indices have different paths.  The text of an integer always is such
    a component, and different integers have different temporary files
    and different sample directories. *)
Theorem X3_item_paths (c : cell) (z z' i i' : Z) :
  (plain_name (str c) = true ->
   temp_path c = "temp_downloads/" +:+ str c +:+ "_temp.mp4"
   /\ frame_dir_of c = "final-dataset/" +:+ str c
   /\ sample_path c i
      = "final-dataset/" +:+ str c +:+ "/" +:+ str c +:+ "_"
        +:+ pretty i +:+ ".jpg"
   /\ (sample_path c i = sample_path c i' -> i = i'))
  /\ plain_name (str (Num z)) = true
  /\ (temp_path (Num z) = temp_path (Num z') -> z = z')
  /\ (frame_dir_of (Num z) = frame_dir_of (Num z') -> z = z').
Proof.
  assert (T : forall a, plain_name (str a) = true ->
                temp_path a = "temp_downloads/" +:+ str a +:+ "_temp.mp4").
  { intros a Ha. unfold temp_path.
    rewrite os_path_join_relative; [reflexivity |].
    intros t. apply text_prefix_no_slash; [| discriminate].
    intros u. now apply plain_name_relative. }
  assert (D : forall a, plain_name (str a) = true ->
                frame_dir_of a = "final-dataset/" +:+ str a).
  { intros a Ha. unfold frame_dir_of.
    rewrite os_path_join_relative; [reflexivity |].
    intros t. now apply plain_name_relative. }
  assert (P : forall a j, plain_name (str a) = true ->
                sample_path a j
                = "final-dataset/" +:+ str a +:+ "/" +:+ str a +:+ "_"
                  +:+ pretty j +:+ ".jpg").
  { intros a j Ha. unfold sample_path.
    rewrite os_path_join_relative.
    - rewrite (D a Ha). symmetry. apply string_app_assoc.
    - intros t. apply text_prefix_no_slash; [| discriminate].
      intros u. now apply plain_name_relative. }
  split; [| split; [apply Num_plain | split]].
  - intros Hc. split; [now apply T |]. split; [now apply D |].
    split; [now apply P |].
    rewrite !P by exact Hc. intros H.
    apply (inj (String.app "final-dataset/")) in H.
    apply (inj (String.app (str c))) in H.
    apply (inj (String.app "/")) in H.
    apply (inj (String.app (str c))) in H.
    apply (inj (String.app "_")) in H.
    apply string_app_inj_r in H. now apply (inj pretty).
  - rewrite !T by apply Num_plain. simpl str. intros H.
    apply (inj (String.app "temp_downloads/")) in H.
    apply string_app_inj_r in H. now apply (inj pretty).
  - rewrite !D by apply Num_plain. simpl str. intros H.
    apply (inj (String.app "final-dataset/")) in H.
    now apply (inj pretty).
Qed.

Lemma X3_witness :
  temp_path (Flt "1.0") = "temp_downloads/1.0_temp.mp4"
  /\ frame_dir_of (Flt "1.0") = "final-dataset/1.0"
  /\ sample_path (Flt "1.0") 2 = "final-dataset/1.0/1.0_2.jpg".
Proof.
  destruct (X3_item_paths (Flt "1.0") 0 0 2 2) as [H _].
  destruct (H eq_refl) as (H1 & H2 & H3 & _).
  split; [exact H1 |]. split; [exact H2 | exact H3].
Defined.

(** ** The positions that are sampled *)

Lemma Sorted_map_seq (g : nat -> Z) k : forall a,
  (forall i, g i <= g (S i)) -> Sorted Z.le (map g (seq a k)).
Proof.
  induction k as [|k IH]; intros a Hg; simpl; [constructor |].
  constructor; [now apply IH |].
  destruct k; simpl; constructor. apply Hg.
Qed.

Lemma evenly_spaced_sorted fc n : 0 <= fc -> Sorted Z.le (evenly_spaced fc n).
Proof.
  intros Hfc. unfold evenly_spaced, range. rewrite List.map_map.
  destruct (Z.le_gt_cases n 0) as [Hn | Hn].
  - replace (Z.to_nat n) with 0%nat by lia. constructor.
  - apply Sorted_map_seq. intros i. apply Z.quot_le_mono; nia.
Qed.

Lemma range_length n : length (range n) = Z.to_nat n.
Proof. unfold range. now rewrite List.length_map, List.length_seq. Qed.

Lemma range_complete n p : 0 <= p < n -> In p (range n).
Proof.
  intros Hp. unfold range. apply in_map_iff. exists (Z.to_nat p).
  split; [lia |]. apply in_seq. lia.
Qed.

(** X4.  The positions [capture_random_frames] seeks to are always in
    ascending order, so that sample [i] is the [i]-th position from the
    start.  With at least as many frames as samples they are the
    positions drawn by [random.sample], sorted; choosing them raises only
    what [random.sample] raises.  Choosing positions changes nothing. *)
Theorem X4_positions_ascending env fc n w r w' :
  0 <= fc ->
  choose_frame_indices env fc n w = (r, w') ->
  w' = w
  /\ match r with
     | Ok l =>
         Sorted Z.le l
         /\ (n <= fc ->
             exists picked, random_sample env fc n = Ok picked /\ l ≡ₚ picked)
     | Raise e => n <= fc /\ random_sample env fc n = Raise e
     end.
Proof.
  intros Hfc. unfold choose_frame_indices.
  destruct (Z.ltb_spec fc n) as [Hlt | Hge].
  - intros [= <- <-]. split; [reflexivity |].
    split; [now apply evenly_spaced_sorted | lia].
  - unfold bind, lift, ret.
    destruct (random_sample env fc n) as [picked|e]; intros [= <- <-];
      (split; [reflexivity |]).
    + split; [apply (Sorted_merge_sort Z.le) |].
      intros _. exists picked. split; [reflexivity |].
      apply merge_sort_Permutation.
    + auto.
Qed.

Lemma X4_witness :
  choose_frame_indices Scenario.three_rows_env 100 5 Scenario.start
  = (Ok [10; 30; 50; 70; 90], Scenario.start)
  /\ Sorted Z.le [10; 30; 50; 70; 90].
Proof.
  split; [vm_compute; reflexivity |].
  destruct (X4_positions_ascending Scenario.three_rows_env 100 5
              Scenario.start (Ok [10; 30; 50; 70; 90]) Scenario.start
              ltac:(lia) ltac:(vm_compute; reflexivity)) as (_ & H & _).
  exact H.
Defined.

(** X5.  A media with fewer frames than requested samples always yields a
    repeated position: at least two of its samples are the same frame. *)
Theorem X5_short_media_repeats_a_frame fc n :
  0 < fc -> fc < n -> ~ List.NoDup (evenly_spaced fc n).
Proof.
  intros Hfc Hn Hnd.
  assert (Hincl : incl (evenly_spaced fc n) (range fc)).
  { intros p Hp. apply range_complete.
    pose proof (evenly_spaced_in_range fc n Hfc) as Hall.
    rewrite List.Forall_forall in Hall. now apply Hall. }
  pose proof (List.NoDup_incl_length Hnd Hincl) as Hlen.
  rewrite evenly_spaced_length, range_length in Hlen. lia.
Qed.

Lemma X5_witness : ~ List.NoDup (evenly_spaced 3 5).
Proof. apply X5_short_media_repeats_a_frame; lia. Defined.

(** ** What the sampling call writes *)

Lemma adds_ret {A} P (a : A) : adds_only P (ret a).
Proof. intros w. simpl. split; [reflexivity | auto]. Qed.

Lemma adds_lift {A} P (r : result A) : adds_only P (lift r).
Proof. intros w. simpl. split; [reflexivity | auto]. Qed.

Lemma adds_bind {A B} P (m : M A) (k : A -> M B) :
  adds_only P m ->
  (forall a, (exists w, fst (m w) = Ok a) -> adds_only P (k a)) ->
  adds_only P (bind m k).
Proof.
  intros Hm Hk w. unfold bind. specialize (Hm w).
  destruct (m w) as [[a|e] w1] eqn:E; simpl in *; [| exact Hm].
  destruct Hm as [H1 H2].
  assert (Ha : exists w0, fst (m w0) = Ok a) by (exists w; now rewrite E).
  destruct (Hk a Ha w1) as [H3 H4].
  split; [now transitivity (fs w1) |].
  intros q Hq. destruct (H4 q Hq) as [Hq1 | Hq1]; auto.
Qed.

Lemma adds_try {A} P (m : M A) (h : exn -> M A) :
  adds_only P m -> (forall e, adds_only P (h e)) ->
  adds_only P (try_except m h).
Proof.
  intros Hm Hh w. unfold try_except. specialize (Hm w).
  destruct (m w) as [[a|e] w1]; simpl in *; [exact Hm |].
  destruct Hm as [H1 H2]. destruct (Hh e w1) as [H3 H4].
  split; [now transitivity (fs w1) |].
  intros q Hq. destruct (H4 q Hq) as [Hq1 | Hq1]; auto.
Qed.

Lemma adds_weaken {A} (P Q : string -> Prop) (m : M A) :
  (forall q, P q -> Q q) -> adds_only P m -> adds_only Q m.
Proof.
  intros HPQ Hm w. destruct (Hm w) as [H1 H2]. split; [exact H1 |].
  intros q Hq. destruct (H2 q Hq); auto.
Qed.

Section Writes.

Context (env : Env).

Lemma adds_os_path_exists P p : adds_only P (os_path_exists p).
Proof. intros w. simpl. split; [reflexivity | auto]. Qed.

Lemma adds_makedirs d : adds_only (eq d) (makedirs env d).
Proof.
  intros w. unfold makedirs. destruct (os_makedirs env d (fs w)); simpl.
  - split; [apply union_subseteq_r |]. intros q Hq.
    apply elem_of_union in Hq as [Hq | Hq]; [right | now left].
    apply elem_of_singleton in Hq. now subst.
  - split; [reflexivity | auto].
Qed.

Lemma adds_cv2_imwrite p : adds_only (eq p) (cv2_imwrite env p).
Proof.
  intros w. unfold cv2_imwrite. destruct (imwrite env p (fs w)) as [[|]|];
    simpl; try (split; [reflexivity | now auto]).
  split; [apply union_subseteq_r |]. intros q Hq.
  apply elem_of_union in Hq as [Hq | Hq]; [right | now left].
  apply elem_of_singleton in Hq. now subst.
Qed.

Lemma adds_ensure_dir_exists d : adds_only (eq d) (ensure_dir_exists env d).
Proof.
  unfold ensure_dir_exists. apply adds_bind; [apply adds_os_path_exists |].
  intros [|] _; simpl; [apply adds_ret | apply adds_makedirs].
Qed.

Lemma adds_choose_frame_indices P fc n :
  adds_only P (choose_frame_indices env fc n).
Proof.
  unfold choose_frame_indices. destruct (fc <? n); [apply adds_ret |].
  apply adds_bind; [apply adds_lift |]. intros picked _. apply adds_ret.
Qed.

(** The loop writes only the files of the numbered positions it is given
    whose frame can be read. *)
Lemma adds_save_frames cap dir vn l :
  adds_only
    (fun q => exists i idx,
       In (i, idx) l /\ read cap idx = true
       /\ q = os_path_join dir (str vn +:+ "_" +:+ pretty i +:+ ".jpg"))
    (save_frames env cap dir vn l).
Proof.
  induction l as [|[i idx] l IH]; [apply adds_ret |].
  simpl. apply adds_bind.
  - destruct (read cap idx) eqn:Hr; [| apply adds_ret].
    apply adds_bind; [| intros; apply adds_ret].
    eapply adds_weaken; [| apply adds_cv2_imwrite].
    intros q <-. exists i, idx. auto.
  - intros _ _. eapply adds_weaken; [| exact IH].
    intros q (j & jdx & Hin & Hr & ->). exists j, jdx. auto.
Qed.

Lemma enumerate_In {A} (l : list A) : forall start i x,
  In (i, x) (enumerate start l) ->
  start <= i < start + Z.of_nat (length l) /\ In x l.
Proof.
  induction l as [|y l IH]; intros start i x; simpl; [contradiction |].
  intros [[= <- <-] | H]; [split; [lia | now left] |].
  apply IH in H as [H1 H2]. split; [lia | now right].
Qed.

(** The number of positions that are chosen, for a [random.sample] that
    returns as many positions as it is asked for. *)
Lemma choose_frame_indices_length fc n w l w' :
  (forall picked, random_sample env fc n = Ok picked ->
                  length picked = Z.to_nat n) ->
  choose_frame_indices env fc n w = (Ok l, w') ->
  length l = Z.to_nat n.
Proof.
  intros Hsz. unfold choose_frame_indices. destruct (fc <? n).
  - intros [= <- _]. apply evenly_spaced_length.
  - unfold bind, lift, ret.
    destruct (random_sample env fc n) as [picked|e] eqn:E; [| discriminate].
    intros [= <- _]. rewrite (merge_sort_Permutation Z.le picked). auto.
Qed.

Lemma capture_random_frames_adds p vn n :
  (forall fc picked, random_sample env fc n = Ok picked ->
                     length picked = Z.to_nat n) ->
  adds_only
    (fun q => q = frame_dir_of vn
              \/ exists i, 1 <= i <= n /\ q = sample_path vn i)
    (capture_random_frames env p vn n).
Proof.
  intros Hsz. unfold capture_random_frames.
  apply adds_try; [| intros; apply adds_ret].
  apply adds_bind; [intros w; simpl; split; [reflexivity | auto] |].
  intros cap _. destruct (isOpened cap); simpl; [| apply adds_ret].
  destruct (frame_count_of cap <=? 0); [apply adds_ret |].
  fold (frame_dir_of vn).
  apply adds_bind.
  { eapply adds_weaken; [| apply adds_ensure_dir_exists]. intros q <-. auto. }
  intros _ _. apply adds_bind; [apply adds_choose_frame_indices |].
  intros l [w Hl]. apply adds_bind; [| intros; apply adds_ret].
  eapply adds_weaken; [| apply adds_save_frames].
  intros q (i & idx & Hin & _ & ->). right. exists i.
  apply enumerate_In in Hin as [Hi _].
  destruct (choose_frame_indices env (frame_count_of cap) n w) as [r w1] eqn:E.
  simpl in Hl. subst r.
  rewrite (choose_frame_indices_length _ _ _ _ _ (Hsz _) E) in Hi.
  split; [| reflexivity].
  destruct (Z.le_gt_cases 0 n); lia.
Qed.

End Writes.

(** X6.  For a video number whose text is a single path component (an
    integer, or a float as formatted: no slash, not empty, not [.] or
    [..]), in a state where [final-dataset] exists, as it does once the
    run has ensured it, and for a [random.sample] that returns as many
    positions as it is asked for: [capture_random_frames] never raises,
    leaves the counters alone and removes nothing, the downloaded video
    included.  The only paths it can create are the directory of the item
    and its sample files numbered [1] to [num_frames]. *)
Theorem X6_capture_writes_only_samples env p vn n w :
  plain_name (str vn) = true ->
  OUTPUT_DIR ∈ fs w ->
  (forall fc picked, random_sample env fc n = Ok picked ->
                     length picked = Z.to_nat n) ->
  exists b w',
    capture_random_frames env p vn n w = (Ok b, w')
    /\ stats w' = stats w
    /\ fs w ⊆ fs w'
    /\ forall q, q ∈ fs w' ->
         q ∈ fs w \/ q = frame_dir_of vn
         \/ exists i, 1 <= i <= n /\ q = sample_path vn i.
Proof.
  intros _ _ Hsz.
  destruct (never_raises_run _ w (never_capture_random_frames env p vn n))
    as (b & w' & H).
  exists b, w'. split; [exact H |].
  split; [exact (keeps_stats_run _ _ _ _
                   (keeps_capture_random_frames env p vn n) H) |].
  destruct (capture_random_frames_adds env p vn n Hsz w) as [H1 H2].
  rewrite H in H1, H2. simpl in *. auto.
Qed.

Lemma X6_witness :
  exists b w',
    capture_random_frames Scenario.three_rows_env
      "temp_downloads/3_temp.mp4" (Num 3) 5 (Scenario.running 3) = (Ok b, w')
    /\ stats w' = stats (Scenario.running 3)
    /\ fs (Scenario.running 3) ⊆ fs w'
    /\ forall q, q ∈ fs w' ->
         q ∈ fs (Scenario.running 3) \/ q = frame_dir_of (Num 3)
         \/ exists i, 1 <= i <= 5 /\ q = sample_path (Num 3) i.
Proof.
  apply X6_capture_writes_only_samples.
  - reflexivity.
  - apply (bool_decide_unpack _). vm_compute. exact I.
  - intros fc picked [= <-]. reflexivity.
Defined.

Section SamplingResult.

Context (env : Env).

Lemma ensure_dir_exists_Ok d w w' :
  ensure_dir_exists env d w = (Ok tt, w') -> d ∈ fs w'.
Proof.
  unfold ensure_dir_exists, bind, os_path_exists, makedirs, ret.
  destruct (decide (d ∈ fs w)) as [Hin | Hout].
  - rewrite (bool_decide_eq_true_2 _ Hin). simpl. now intros [= <-].
  - rewrite (bool_decide_eq_false_2 _ Hout). simpl.
    destruct (os_makedirs env d (fs w)); [| discriminate].
    intros [= <-]. simpl. apply elem_of_union_l. now apply elem_of_singleton.
Qed.

Lemma choose_frame_indices_same_world fc n w r w' :
  choose_frame_indices env fc n w = (r, w') -> w' = w.
Proof.
  unfold choose_frame_indices. destruct (fc <? n); [now intros [= _ <-] |].
  unfold bind, lift, ret. destruct (random_sample env fc n); now intros [= _ <-].
Qed.

(** The [try] block of [capture_random_frames], opened up. *)
Lemma capture_random_frames_True p vn n w w' :
  capture_random_frames env p vn n w = (Ok true, w') ->
  exists cap w1 l,
    VideoCapture env p (fs w) = Ok cap
    /\ isOpened cap = true /\ 0 < frame_count_of cap
    /\ ensure_dir_exists env (frame_dir_of vn) w = (Ok tt, w1)
    /\ choose_frame_indices env (frame_count_of cap) n w1 = (Ok l, w1)
    /\ save_frames env cap (frame_dir_of vn) vn (enumerate 1 l) w1
       = (Ok tt, w').
Proof.
  unfold capture_random_frames, try_except. fold (frame_dir_of vn).
  match goal with
  | |- context [match ?body w with _ => _ end] =>
      destruct (body w) as [[b|e] w0] eqn:Hb; [| discriminate]
  end.
  intros [= -> ->].
  apply bind_Ok_inv in Hb as (cap & w0 & Hcap & Hb).
  injection Hcap as Hcap <-.
  destruct (isOpened cap) eqn:Hopen; simpl in Hb; [| discriminate].
  destruct (Z.leb_spec (frame_count_of cap) 0) as [? | Hfc]; [discriminate |].
  apply bind_Ok_inv in Hb as ([] & w1 & Hdir & Hb).
  apply bind_Ok_inv in Hb as (l & w2 & Hl & Hb).
  pose proof (choose_frame_indices_same_world _ _ _ _ _ Hl) as ->.
  apply bind_Ok_inv in Hb as ([] & w3 & Hsave & Hb).
  injection Hb as <-.
  exists cap, w1, l. repeat split; assumption.
Qed.

End SamplingResult.

(** X7.  When [capture_random_frames] returns [True], the media did open
    with a positive frame count and the directory of the item exists
    afterwards. *)
Theorem X7_capture_true_means_opened env p vn n w w' :
  capture_random_frames env p vn n w = (Ok true, w') ->
  (exists cap,
     VideoCapture env p (fs w) = Ok cap
     /\ isOpened cap = true /\ 0 < frame_count_of cap)
  /\ frame_dir_of vn ∈ fs w'.
Proof.
  intros H.
  apply capture_random_frames_True in H
    as (cap & w1 & l & Hcap & Hopen & Hfc & Hdir & _ & Hsave).
  split; [eauto |].
  apply ensure_dir_exists_Ok in Hdir.
  destruct (adds_save_frames env cap (frame_dir_of vn) vn (enumerate 1 l) w1)
    as [Hsub _].
  rewrite Hsave in Hsub. simpl in Hsub. now apply Hsub.
Qed.

Lemma X7_witness :
  (exists cap,
     VideoCapture Scenario.three_rows_env "temp_downloads/1_temp.mp4"
       (fs Scenario.start) = Ok cap
     /\ isOpened cap = true /\ 0 < frame_count_of cap)
  /\ frame_dir_of (Num 1)
     ∈ fs (snd (capture_random_frames Scenario.three_rows_env
                  "temp_downloads/1_temp.mp4" (Num 1) 5 Scenario.start)).
Proof.
  apply (X7_capture_true_means_opened Scenario.three_rows_env
           "temp_downloads/1_temp.mp4" (Num 1) 5 Scenario.start).
  vm_compute. reflexivity.
Defined.

Section FullSuccess.

Context (env : Env) (cap : capture).

Hypothesis read_ok : forall idx, read cap idx = true.
Hypothesis imwrite_true : forall q f, imwrite env q f = Ok true.

Lemma save_frames_all dir vn l : forall start w,
  exists w',
    save_frames env cap dir vn (enumerate start l) w = (Ok tt, w')
    /\ fs w ⊆ fs w'
    /\ forall k, (k < length l)%nat ->
         os_path_join dir
           (str vn +:+ "_" +:+ pretty (start + Z.of_nat k) +:+ ".jpg")
         ∈ fs w'.
Proof.
  induction l as [|idx l IH]; intros start w.
  - exists w. split; [reflexivity |]. split; [reflexivity |].
    simpl. intros k Hk. lia.
  - simpl. unfold bind at 1. rewrite read_ok.
    unfold bind at 1, cv2_imwrite. rewrite imwrite_true. unfold ret.
    set (out := os_path_join dir
                  (str vn +:+ "_" +:+ pretty start +:+ ".jpg")).
    destruct (IH (start + 1) (set_fs ({[out]} ∪ fs w) w))
      as (w' & Hrun & Hsub & Hall).
    exists w'. split; [exact Hrun |]. simpl in Hsub. split.
    + transitivity ({[out]} ∪ fs w); [apply union_subseteq_r | exact Hsub].
    + intros [|k] Hk.
      * replace (start + Z.of_nat 0) with start by lia.
        apply Hsub, elem_of_union_l. now apply elem_of_singleton.
      * replace (start + Z.of_nat (S k)) with (start + 1 + Z.of_nat k) by lia.
        apply Hall. lia.
Qed.

End FullSuccess.

(** X8.  When the media opens with a positive frame count, every frame
    can be read, every [cv2.imwrite] reports [True], the directory can be
    created and [random.sample] returns [num_frames] positions, the call
    returns [True] and all the sample files [1] to [num_frames] of the
    item exist afterwards. *)
Theorem X8_full_success_writes_all_samples env p vn n w cap :
  VideoCapture env p (fs w) = Ok cap ->
  isOpened cap = true -> 0 < frame_count_of cap ->
  (forall idx, read cap idx = true) ->
  (forall q f, imwrite env q f = Ok true) ->
  (forall d f, os_makedirs env d f = Ok tt) ->
  (exists picked,
     random_sample env (frame_count_of cap) n = Ok picked
     /\ length picked = Z.to_nat n) ->
  exists w',
    capture_random_frames env p vn n w = (Ok true, w')
    /\ (frame_dir_of vn ∈ fs w')
    /\ forall i, 1 <= i <= n -> sample_path vn i ∈ fs w'.
Proof.
  intros Hcap Hopen Hfc Hrd Hiw Hmk (picked & Hpick & Hlen).
  destruct (ensure_dir_exists_completes env Hmk (frame_dir_of vn) w)
    as [w1 Hdir].
  assert (Hl : exists l,
             choose_frame_indices env (frame_count_of cap) n w1 = (Ok l, w1)
             /\ length l = Z.to_nat n).
  { unfold choose_frame_indices.
    destruct (frame_count_of cap <? n).
    - exists (evenly_spaced (frame_count_of cap) n).
      split; [reflexivity | apply evenly_spaced_length].
    - unfold bind, lift, ret. rewrite Hpick.
      exists (merge_sort Z.le picked). split; [reflexivity |].
      now rewrite (merge_sort_Permutation Z.le picked). }
  destruct Hl as (l & Hl & Hll).
  destruct (save_frames_all env cap Hrd Hiw (frame_dir_of vn) vn l 1 w1)
    as (w' & Hsave & Hsub & Hall).
  exists w'. split; [| split].
  - unfold capture_random_frames, try_except. fold (frame_dir_of vn).
    unfold bind at 1. rewrite Hcap, Hopen. simpl.
    destruct (Z.leb_spec (frame_count_of cap) 0) as [? | _]; [lia |].
    rewrite (bind_eq _ _ _ _ _ Hdir), (bind_eq _ _ _ _ _ Hl),
      (bind_eq _ _ _ _ _ Hsave).
    reflexivity.
  - apply Hsub. eapply ensure_dir_exists_Ok, Hdir.
  - intros i Hi. unfold sample_path.
    replace i with (1 + Z.of_nat (Z.to_nat (i - 1))) by lia.
    apply Hall. lia.
Qed.

Lemma X8_witness :
  exists w',
    capture_random_frames Scenario.three_rows_env
      "temp_downloads/1_temp.mp4" (Num 1) 5 Scenario.start = (Ok true, w')
    /\ (frame_dir_of (Num 1) ∈ fs w')
    /\ forall i, 1 <= i <= 5 -> sample_path (Num 1) i ∈ fs w'.
Proof.
  apply (X8_full_success_writes_all_samples Scenario.three_rows_env
           "temp_downloads/1_temp.mp4" (Num 1) 5 Scenario.start
           (Scenario.clip "temp_downloads/1_temp.mp4")).
  - reflexivity.
  - reflexivity.
  - simpl. lia.
  - reflexivity.
  - reflexivity.
  - reflexivity.
  - eexists. split; reflexivity.
Defined.

(** ** More on one item *)

Section ItemMore.

Context (env : Env).

Lemma stats_incr_fs k w : fs (snd (stats_incr k w)) = fs w.
Proof. unfold stats_incr. now destruct (stats w !! k). Qed.

Lemma incr_ret_fs {A} k (a : A) w :
  fs (snd ((let* _ := stats_incr k in ret a) w)) = fs w.
Proof.
  unfold bind. pose proof (stats_incr_fs k w) as H.
  now destruct (stats_incr k w) as [[[]|e] w1].
Qed.

Lemma secure_delete_file_removes p w :
  os_remove env p (fs w) = Ok tt ->
  p ∉ fs (snd (secure_delete_file env p w)).
Proof.
  intros Hrm.
  unfold secure_delete_file, try_except, bind, os_path_exists, remove, ret.
  destruct (decide (p ∈ fs w)) as [Hin | Hout].
  - rewrite (bool_decide_eq_true_2 _ Hin), Hrm. simpl.
    rewrite elem_of_difference. intros [_ Hp]. apply Hp.
    now apply elem_of_singleton.
  - now rewrite (bool_decide_eq_false_2 _ Hout).
Qed.

(** A [try] block that returns: the bucket that was incremented, read
    off the returned boolean. *)
Lemma process_video_try_Ok_bucket vn url w b w1 :
  process_video_try env vn url w = (Ok b, w1) ->
  if b then bumped "successful" (stats w) (stats w1)
  else bumped "partial" (stats w) (stats w1)
       \/ bumped "failed" (stats w) (stats w1).
Proof.
  unfold process_video_try, rate_limit, lift. unfold bind at 1.
  destruct (sleep env) as [[]|e0]; [| discriminate].
  destruct (never_raises_run _ w (never_download_video env url vn))
    as (o & w1' & Hd).
  pose proof (keeps_stats_run _ _ _ _ (keeps_download_video env url vn) Hd) as E1.
  rewrite (bind_eq _ _ _ _ _ Hd). destruct o as [p|].
  - destruct (never_raises_run _ w1' (never_capture_random_frames env p vn 5))
      as (c & w2 & Hc).
    pose proof (keeps_stats_run _ _ _ _
                  (keeps_capture_random_frames env p vn 5) Hc) as E2.
    destruct (never_raises_run _ w2 (never_secure_delete_file env p))
      as (d & w3 & Hx).
    pose proof (keeps_stats_run _ _ _ _ (keeps_secure_delete_file env p) Hx) as E3.
    rewrite (bind_eq _ _ _ _ _ Hc), (bind_eq _ _ _ _ _ Hx).
    unfold bind at 1.
    destruct ((if c then stats_incr "successful" else stats_incr "partial") w3)
      as [[[]|e1] w4] eqn:Hi; [| discriminate].
    intros [= <- <-]. replace (stats w) with (stats w3) by congruence.
    destruct c; apply stats_incr_Ok in Hi as [Hi _]; auto.
  - unfold bind at 1.
    destruct (stats_incr "failed" w1') as [[[]|e1] w4] eqn:Hi; [| discriminate].
    intros [= <- <-]. replace (stats w) with (stats w1') by congruence.
    apply stats_incr_Ok in Hi as [Hi _]. auto.
Qed.

Lemma bumped_dom k s s' : bumped k s s' -> dom s' = dom s.
Proof.
  intros (v & Hv & ->). rewrite dom_insert_L.
  assert (k ∈ dom s) by (apply elem_of_dom; eauto).
  apply set_eq. intros x. rewrite elem_of_union, elem_of_singleton.
  split; [intros [-> | H']; trivial | auto].
Qed.

Lemma bumped_other k s s' j : bumped k s s' -> j <> k -> s' !! j = s !! j.
Proof. intros (v & Hv & ->) Hne. now apply lookup_insert_ne. Qed.

End ItemMore.

(** X10.  After a fetch that succeeded, the downloaded video is gone when
    [process_video] has returned, whatever the sampling did, provided
    [os.remove] does not fail on it. *)
Theorem X10_temp_file_removed_after_fetch env vn url w p w1 :
  sleep env = Ok tt ->
  download_video env url vn w = (Ok (Some p), w1) ->
  (forall f, os_remove env p f = Ok tt) ->
  p = temp_path vn /\ (p ∈ fs w1)
  /\ p ∉ fs (snd (process_video env vn url w)).
Proof.
  intros Hs Hd Hrm.
  destruct (download_video_cases env url vn w) as (o & w1' & Hd' & _ & _ & Ho).
  rewrite Hd in Hd'. injection Hd' as <- <-.
  destruct Ho as [([= ->] & Hin & _) | [? _]]; [| discriminate].
  split; [reflexivity |]. split; [exact Hin |].
  set (p := temp_path vn) in *.
  destruct (never_raises_run _ w1 (never_capture_random_frames env p vn 5))
    as (b & w2 & Hc).
  pose proof (secure_delete_file_removes env p w2 (Hrm _)) as Hgone.
  destruct (secure_delete_file env p w2) as [rd w3] eqn:Hx. simpl in Hgone.
  destruct (never_raises_run _ w2 (never_secure_delete_file env p))
    as (d & w3' & Hx').
  rewrite Hx in Hx'. injection Hx' as -> <-.
  unfold process_video, try_except, process_video_try, rate_limit, lift.
  unfold bind at 1. rewrite Hs.
  rewrite (bind_eq _ _ _ _ _ Hd), (bind_eq _ _ _ _ _ Hc), (bind_eq _ _ _ _ _ Hx).
  unfold bind at 1.
  pose proof (stats_incr_fs (if b then "successful" else "partial") w3) as Hfs.
  assert (Hi : (if b then stats_incr "successful" else stats_incr "partial") w3
               = stats_incr (if b then "successful" else "partial") w3)
    by now destruct b.
  rewrite Hi.
  destruct (stats_incr (if b then "successful" else "partial") w3)
    as [[[]|e] w4]; simpl in Hfs |- *.
  - now rewrite Hfs.
  - rewrite incr_ret_fs. now rewrite Hfs.
Qed.

Lemma X10_witness :
  "temp_downloads/1_temp.mp4"
  ∉ fs (snd (process_video Scenario.three_rows_env (Num 1)
               "https://vimeo.com/A" (Scenario.running 3))).
Proof.
  destruct (X10_temp_file_removed_after_fetch Scenario.three_rows_env (Num 1)
              "https://vimeo.com/A" (Scenario.running 3)
              "temp_downloads/1_temp.mp4"
              (set_fs ({["temp_downloads/1_temp.mp4"]}
                         ∪ fs (Scenario.running 3)) (Scenario.running 3))
              eq_refl) as (_ & _ & H).
  - vm_compute. reflexivity.
  - reflexivity.
  - exact H.
Defined.

(** X11.  On a dict that has the [failed] counter, [process_video]
    returns [True] exactly when it has counted the item as successful;
    when it returns [False] the item is counted as partial or as failed.
    The dict keeps its keys, and every entry but the one bucket, [total]
    included, keeps its value. *)
Theorem X11_result_matches_bucket env vn url w :
  is_Some (stats w !! "failed") ->
  exists b w' k,
    process_video env vn url w = (Ok b, w')
    /\ bumped k (stats w) (stats w')
    /\ (b = true <-> k = "successful")
    /\ (b = false -> k = "partial" \/ k = "failed")
    /\ dom (stats w') = dom (stats w)
    /\ forall j, j <> k -> stats w' !! j = stats w !! j.
Proof.
  intros [f Hf].
  assert (H : exists b w' k,
             process_video env vn url w = (Ok b, w')
             /\ bumped k (stats w) (stats w')
             /\ (b = true <-> k = "successful")
             /\ (b = false -> k = "partial" \/ k = "failed")).
  { destruct (process_video_try env vn url w) as [[b|e] w1] eqn:Hb.
    - rewrite (process_video_returned _ _ _ _ _ _ Hb).
      apply process_video_try_Ok_bucket in Hb.
      destruct b.
      + exists true, w1, "successful". repeat split; auto; discriminate.
      + destruct Hb as [Hb | Hb];
          [exists false, w1, "partial" | exists false, w1, "failed"];
          repeat split; auto; discriminate.
    - rewrite (process_video_caught _ _ _ _ _ _ _ Hb Hf).
      exists false, (set_stats (<["failed" := f + 1]> (stats w)) w1), "failed".
      repeat split; auto; try discriminate. exists f. auto. }
  destruct H as (b & w' & k & Hp & Hb & H1 & H2).
  exists b, w', k. repeat split; try tauto.
  - now apply (bumped_dom k).
  - intros j Hj. now apply (bumped_other k).
Qed.

Lemma X11_witness :
  exists b w' k,
    process_video Scenario.three_rows_env (Num 3) "https://vimeo.com/C"
      (Scenario.running 3) = (Ok b, w')
    /\ bumped k (stats (Scenario.running 3)) (stats w')
    /\ (b = true <-> k = "successful")
    /\ (b = false -> k = "partial" \/ k = "failed")
    /\ dom (stats w') = dom (stats (Scenario.running 3))
    /\ forall j, j <> k -> stats w' !! j = stats (Scenario.running 3) !! j.
Proof.
  apply X11_result_matches_bucket. exists 0. reflexivity.
Defined.

(** ** More on the run *)

(** X12.  When the manifest cannot be read, the run ends after the two
    directories have been ensured: no summary, no item, and the counters
    are not touched. *)
Theorem X12_unreadable_manifest_aborts env csv limit w e :
  read_csv env csv = Raise e ->
  batch_process_videos env csv limit w
  = (let* _ := ensure_dir_exists env DOWNLOAD_DIR in
     let* _ := ensure_dir_exists env OUTPUT_DIR in
     ret None) w
  /\ (forall st, fst (batch_process_videos env csv limit w) <> Ok (Some st))
  /\ stats (snd (batch_process_videos env csv limit w)) = stats w.
Proof.
  intros Hcsv.
  assert (E : batch_process_videos env csv limit w
              = (let* _ := ensure_dir_exists env DOWNLOAD_DIR in
                 let* _ := ensure_dir_exists env OUTPUT_DIR in
                 ret None) w).
  { unfold batch_process_videos.
    apply bind_ext. intros _ w1. apply bind_ext. intros _ w2.
    unfold bind at 1, try_except, lift. unfold bind at 1. now rewrite Hcsv. }
  rewrite E. split; [reflexivity |]. split.
  - intros st. unfold bind at 1.
    destruct (ensure_dir_exists env DOWNLOAD_DIR w) as [[[]|e0] w1];
      [| discriminate].
    unfold bind.
    destruct (ensure_dir_exists env OUTPUT_DIR w1) as [[[]|e0] w2]; discriminate.
  - assert (K : keeps_stats
                  (let* _ := ensure_dir_exists env DOWNLOAD_DIR in
                   let* _ := ensure_dir_exists env OUTPUT_DIR in
                   @ret (option (gmap string Z)) None)).
    { apply keeps_bind; [apply keeps_ensure_dir_exists |]. intros _.
      apply keeps_bind; [apply keeps_ensure_dir_exists |]. intros _.
      apply keeps_ret. }
    apply K.
Qed.

Lemma X12_witness :
  batch_process_videos Scenario.unreadable_env "final-list.csv" None
    Scenario.start
  = (Ok None, {| fs := {["temp_downloads"; "final-dataset"]}; stats := ∅ |}).
Proof.
  destruct (X12_unreadable_manifest_aborts Scenario.unreadable_env
              "final-list.csv" None Scenario.start
              (OtherException "FileNotFoundError") eq_refl) as [H _].
  rewrite H. vm_compute. reflexivity.
Defined.

Lemma ensure_dir_exists_present env d w :
  d ∈ fs w -> ensure_dir_exists env d w = (Ok tt, w).
Proof.
  intros Hin. unfold ensure_dir_exists, bind, os_path_exists, ret.
  now rewrite (bool_decide_eq_true_2 _ Hin).
Qed.

Lemma ensure_dir_exists_raise env d w e :
  d ∉ fs w -> os_makedirs env d (fs w) = Raise e ->
  ensure_dir_exists env d w = (Raise e, w).
Proof.
  intros Hout Hmk. unfold ensure_dir_exists, bind, os_path_exists, makedirs.
  rewrite (bool_decide_eq_false_2 _ Hout). simpl. now rewrite Hmk.
Qed.

(** X13.  The two [ensure_dir_exists] calls at the start of the run are
    outside every [try]: when [temp_downloads] is missing and cannot be
    created, or [final-dataset] is, the exception of [os.makedirs] leaves
    [batch_process_videos] before the manifest is read, and the counters
    are not touched. *)
Theorem X13_makedirs_error_escapes env csv limit w e :
  (DOWNLOAD_DIR ∉ fs w ->
   os_makedirs env DOWNLOAD_DIR (fs w) = Raise e ->
   batch_process_videos env csv limit w = (Raise e, w))
  /\ (DOWNLOAD_DIR ∈ fs w -> OUTPUT_DIR ∉ fs w ->
      os_makedirs env OUTPUT_DIR (fs w) = Raise e ->
      batch_process_videos env csv limit w = (Raise e, w)).
Proof.
  split.
  - intros Hout Hmk. unfold batch_process_videos. unfold bind at 1.
    now rewrite (ensure_dir_exists_raise env _ _ _ Hout Hmk).
  - intros Hin Hout Hmk. unfold batch_process_videos.
    rewrite (bind_eq _ _ _ _ _ (ensure_dir_exists_present env _ _ Hin)).
    unfold bind at 1.
    now rewrite (ensure_dir_exists_raise env _ _ _ Hout Hmk).
Qed.

Lemma X13_witness :
  batch_process_videos Scenario.read_only_env "final-list.csv" None
    Scenario.start
  = (Raise (OtherException "PermissionError"), Scenario.start).
Proof.
  destruct (X13_makedirs_error_escapes Scenario.read_only_env
              "final-list.csv" None Scenario.start
              (OtherException "PermissionError")) as [H _].
  apply H; [| reflexivity].
  apply (bool_decide_unpack _). vm_compute. exact I.
Defined.

Section RunMore.

Context (env : Env).

(** A run that reaches its summary, opened up: the manifest, the state in
    which the counters are created, the dispatch and the final cleanup. *)
Lemma batch_completed_inv csv limit w st w' :
  batch_process_videos env csv limit w = (Ok (Some st), w') ->
  exists df w2 futures w5,
    read_csv env csv = Ok df
    /\ submit_all env (rows (apply_limit limit df))
         (set_stats
            {[ "total" := Z.of_nat (length (rows (apply_limit limit df)));
               "successful" := 0; "partial" := 0; "failed" := 0 ]} w2)
       = (Ok futures, w5)
    /\ try_except
         (let* ex := os_path_exists DOWNLOAD_DIR in
          let* empty := listdir_empty DOWNLOAD_DIR in
          if ex && empty then rmdir env DOWNLOAD_DIR else ret tt)
         (fun _ => ret tt) w5 = (Ok tt, w')
    /\ st = stats w'.
Proof.
  unfold batch_process_videos. intros H.
  apply bind_Ok_inv in H as ([] & w1 & _ & H).
  apply bind_Ok_inv in H as ([] & w2 & _ & H).
  apply bind_Ok_inv in H as (loaded & w3 & Hload & H).
  unfold try_except, bind, lift, ret in Hload.
  destruct (read_csv env csv) as [df|e] eqn:Hcsv;
    injection Hload as <- <-; [| discriminate].
  destruct (bool_decide ("video_number" ∈ columns df)); [| discriminate].
  destruct (bool_decide ("vimeo_link" ∈ columns df)); [| discriminate].
  simpl in H.
  apply bind_Ok_inv in H as ([] & w4 & Hset & H). injection Hset as <-.
  apply bind_Ok_inv in H as (futures & w5 & Hsub & H).
  apply bind_Ok_inv in H as ([] & w6 & Hdone & H).
  rewrite as_completed_swallows in Hdone. injection Hdone as <-.
  apply bind_Ok_inv in H as ([] & w7 & Hclean & H).
  apply bind_Ok_inv in H as (summary & w8 & Hget & H).
  unfold get_stats in Hget. injection Hget as <- <-.
  unfold ret in H. injection H as <- <-.
  exists df, w2, futures, w5. auto.
Qed.

(** What is kept by every [stats[k] += 1] on a bucket is kept by the
    dispatch loop. *)
Lemma submit_all_invariant (I : gmap string Z -> Prop) :
  (forall k s s', k ∈ buckets -> bumped k s s' -> I s -> I s') ->
  forall rws w r w',
    is_Some (stats w !! "failed") -> I (stats w) ->
    submit_all env rws w = (r, w') -> I (stats w').
Proof.
  intros HI. induction rws as [|row rest IH]; intros w r w' Hf Hw.
  - simpl. now intros [= _ <-].
  - destruct (row !! "vimeo_link") as [[|s|z|t]|] eqn:Hl.
    + rewrite submit_all_blank by now left. now apply IH.
    + destruct (String.eqb_spec (strip s) "") as [E | E].
      * rewrite submit_all_blank by (right; eauto). now apply IH.
      * destruct (row !! "video_number") as [vn|] eqn:Hv.
        -- rewrite (submit_all_link _ _ _ _ _ _ Hl E Hv).
           destruct (process_video_one_bucket env vn s w Hf)
             as (b & w1 & k & Hp & Hk & Hb).
           rewrite Hp.
           assert (Hf1 : is_Some (stats w1 !! "failed"))
             by (eapply bumped_is_Some; eauto).
           assert (Hw1 : I (stats w1)) by (eapply HI; eauto).
           destruct (submit_all env rest w1) as [r1 w2] eqn:Hr.
           pose proof (IH _ _ _ Hf1 Hw1 Hr) as H2.
           now destruct r1; intros [= _ <-].
        -- simpl. unfold row_get. rewrite Hl, Hv.
           unfold bind at 1, ret. unfold bind at 1. simpl. unfold ret.
           destruct (String.eqb_spec (strip s) "") as [E' | _];
             [contradiction |].
           simpl. unfold bind at 1, raise. now intros [= _ <-].
    + simpl. unfold row_get. rewrite Hl.
      unfold bind at 1, ret. unfold bind at 1. simpl. unfold raise.
      now intros [= _ <-].
    + simpl. unfold row_get. rewrite Hl.
      unfold bind at 1, ret. unfold bind at 1. simpl. unfold raise.
      now intros [= _ <-].
    + simpl. unfold row_get. rewrite Hl. unfold bind at 1, raise.
      now intros [= _ <-].
Qed.

End RunMore.

Lemma head_length {A} (n : Z) (l : list A) :
  Z.of_nat (length (head n l))
  = if 0 <=? n then Z.min n (Z.of_nat (length l))
    else Z.max 0 (Z.of_nat (length l) + n).
Proof.
  unfold head. destruct (0 <=? n) eqn:E; rewrite length_take; lia.
Qed.

Lemma head_prefix {A} (n : Z) (l : list A) :
  exists rest, l = (head n l ++ rest)%list.
Proof.
  unfold head. destruct (0 <=? n); eexists; symmetry; apply take_drop.
Qed.

(** X14.  With a limit [n], the total of the summary is the number of
    rows for [n = 0], the smaller of [n] and the number of rows for a
    positive [n], and the number of rows less [-n] (or 0) for a negative
    [n], as [df.head(n)] drops the last [-n] rows.  The rows that are
    processed are always the first rows of the manifest. *)
Theorem X14_limit_caps_total env csv n w st w' :
  batch_process_videos env csv (Some n) w = (Ok (Some st), w') ->
  exists df,
    read_csv env csv = Ok df
    /\ st !! "total"
       = Some (if n =? 0 then Z.of_nat (length (rows df))
               else if 0 <? n then Z.min n (Z.of_nat (length (rows df)))
               else Z.max 0 (Z.of_nat (length (rows df)) + n))
    /\ exists rest, rows df = (rows (apply_limit (Some n) df) ++ rest)%list.
Proof.
  intros H.
  destruct (batch_report env _ _ _ _ _ H) as (df & Hcsv & _ & _ & _ & Ht & _).
  exists df. split; [exact Hcsv |]. rewrite Ht. unfold apply_limit.
  destruct (Z.eqb_spec n 0) as [-> | Hn].
  - split; [reflexivity |]. exists []. now rewrite app_nil_r.
  - simpl. split; [| apply head_prefix].
    rewrite head_length. f_equal.
    destruct (Z.leb_spec 0 n), (Z.ltb_spec 0 n); trivial; lia.
Qed.

Lemma X14_witness :
  exists df,
    read_csv Scenario.three_rows_env "final-list.csv" = Ok df
    /\ ({[ "total" := 2; "successful" := 1; "partial" := 0; "failed" := 1 ]}
        : gmap string Z) !! "total"
       = Some (if 2 =? 0 then Z.of_nat (length (rows df))
               else if 0 <? 2 then Z.min 2 (Z.of_nat (length (rows df)))
               else Z.max 0 (Z.of_nat (length (rows df)) + 2))
    /\ exists rest, rows df = (rows (apply_limit (Some 2) df) ++ rest)%list.
Proof.
  apply (X14_limit_caps_total Scenario.three_rows_env "final-list.csv" 2
           Scenario.start _
           (snd (batch_process_videos Scenario.three_rows_env
                   "final-list.csv" (Some 2) Scenario.start))).
  vm_compute. reflexivity.
Defined.

(** X15.  The summary of a completed run has the four counters and no
    other key; none of them is negative, and
    [successful + partial + failed] never exceeds [total]. *)
Theorem X15_summary_is_consistent env csv limit w st w' :
  batch_process_videos env csv limit w = (Ok (Some st), w') ->
  exists t s p f,
    st !! "total" = Some t /\ st !! "successful" = Some s
    /\ st !! "partial" = Some p /\ st !! "failed" = Some f
    /\ dom st = {[ "total"; "successful"; "partial"; "failed" ]}
    /\ 0 <= s /\ 0 <= p /\ 0 <= f /\ s + p + f <= t.
Proof.
  intros H.
  destruct (batch_report env _ _ _ _ _ H)
    as (df & _ & _ & _ & _ & Ht & Hsum).
  destruct (batch_completed_inv env _ _ _ _ _ H)
    as (df' & w2 & futures & w5 & _ & Hsub & Hclean & ->).
  apply (keeps_stats_run _ _ _ _ (keeps_final_cleanup env)) in Hclean.
  set (I := fun s : gmap string Z =>
              dom s = ({[ "total"; "successful"; "partial"; "failed" ]}
                       : gset string)
              /\ map_Forall (fun _ v => 0 <= v) s).
  assert (HI : I (stats w5)).
  { eapply (submit_all_invariant env I); [| | | exact Hsub].
    - intros k s s' Hk Hb [Hd Hnn]. split.
      + now rewrite (bumped_dom k s s' Hb).
      + destruct Hb as (v & Hv & ->). apply map_Forall_insert_2; [| exact Hnn].
        specialize (Hnn k v Hv). simpl in Hnn. lia.
    - exists 0. reflexivity.
    - split.
      + simpl. rewrite !dom_insert_L, dom_singleton_L.
        apply set_eq. intros x. set_solver.
      + simpl. intros k v Hk.
        repeat (apply lookup_insert_Some in Hk as [[_ <-] | [_ Hk]]; [lia |]).
        apply lookup_singleton_Some in Hk as [_ <-]. lia. }
  rewrite <- Hclean in HI. destruct HI as [Hd Hnn].
  assert (Hkey : forall k, k ∈ dom (stats w') ->
                           exists v, stats w' !! k = Some v /\ 0 <= v).
  { intros k Hk. apply elem_of_dom in Hk as [v Hv]. exists v.
    split; [exact Hv | exact (Hnn k v Hv)]. }
  destruct (Hkey "successful") as (s & Hs & Hs0); [rewrite Hd; set_solver |].
  destruct (Hkey "partial") as (p & Hp & Hp0); [rewrite Hd; set_solver |].
  destruct (Hkey "failed") as (f & Hf & Hf0); [rewrite Hd; set_solver |].
  eexists _, s, p, f. split; [exact Ht |].
  repeat (split; [assumption |]).
  unfold counter_sum in Hsum. rewrite Hs, Hp, Hf in Hsum. simpl in Hsum.
  rewrite Hsum. apply inj_le, List.filter_length_le.
Qed.

Lemma X15_witness :
  exists t s p f,
    fresh_stats 3 !! "total" = Some t
    /\ <["successful" := 2]> (<["failed" := 1]> (fresh_stats 3))
       !! "successful" = Some s
    /\ <["successful" := 2]> (<["failed" := 1]> (fresh_stats 3))
       !! "partial" = Some p
    /\ <["successful" := 2]> (<["failed" := 1]> (fresh_stats 3))
       !! "failed" = Some f
    /\ 0 <= s /\ 0 <= p /\ 0 <= f /\ s + p + f <= t.
Proof.
  destruct (X15_summary_is_consistent Scenario.three_rows_env
              "final-list.csv" None Scenario.start
              (<["successful" := 2]> (<["failed" := 1]> (fresh_stats 3)))
              (snd (batch_process_videos Scenario.three_rows_env
                      "final-list.csv" None Scenario.start)))
    as (t & s & p & f & Ht & Hs & Hp & Hf & _ & H).
  - vm_compute. reflexivity.
  - exists t, s, p, f. auto.
Defined.

(** ** Blank links *)

Lemma lstrip_empty_iff s : lstrip s = "" <-> all_space s = true.
Proof.
  induction s as [|a s IH]; simpl; [tauto |].
  destruct (is_py_space a); simpl; [exact IH |].
  split; discriminate.
Qed.

Lemma lstrip_head s a t : lstrip s = String a t -> is_py_space a = false.
Proof.
  induction s as [|b s IH]; simpl; [discriminate |].
  destruct (is_py_space b) eqn:E; [exact IH |].
  now intros [= <- _].
Qed.

Lemma all_space_rev_app s : forall acc,
  all_space (String.rev_app s acc) = all_space s && all_space acc.
Proof.
  induction s as [|a s IH]; intros acc; simpl; [reflexivity |].
  rewrite IH. simpl. destruct (is_py_space a), (all_space s); reflexivity.
Qed.

Lemma rev_app_empty s : forall acc, String.rev_app s acc = "" -> s = "".
Proof.
  induction s as [|a s IH]; intros acc; simpl; [reflexivity |].
  intros H. pose proof (IH _ H) as ->. simpl in H. discriminate.
Qed.

Lemma strip_empty_iff s : strip s = "" <-> all_space s = true.
Proof.
  unfold strip, String.rev. split.
  - intros H. apply rev_app_empty in H. apply lstrip_empty_iff in H.
    rewrite all_space_rev_app in H. simpl in H. rewrite andb_true_r in H.
    destruct (lstrip s) as [|a t] eqn:E; [now apply lstrip_empty_iff |].
    apply lstrip_head in E. simpl in H. now rewrite E in H.
  - intros H. apply lstrip_empty_iff in H. now rewrite H.
Qed.

(** X17.  On a link that is a string of ASCII characters the dispatch
    filter never raises and changes nothing, and it keeps the link
    exactly when it has a character that is not white space (tab, line
    feed, vertical tab, form feed, carriage return, the separators 28 to
    31, space): [link.strip()] is empty exactly for the strings made of
    white space only.  So a row with such a link is dispatched exactly
    when the link is not made of white space only. *)
Theorem X17_blank_means_only_white_space s row w :
  is_ascii s = true ->
  has_link (Str s) w = (Ok (negb (all_space s)), w)
  /\ (strip s = "" <-> all_space s = true)
  /\ (row !! "vimeo_link" = Some (Str s) ->
      (dispatchable row = true <-> all_space s = false)).
Proof.
  intros _.
  assert (E : String.eqb (strip s) "" = all_space s).
  { destruct (String.eqb_spec (strip s) "") as [H | H].
    - symmetry. now apply strip_empty_iff.
    - destruct (all_space s) eqn:A; [| reflexivity].
      now apply strip_empty_iff in A. }
  split; [| split].
  - unfold has_link, ret. simpl. now rewrite E.
  - apply strip_empty_iff.
  - intros Hl. unfold dispatchable. rewrite Hl, E.
    now destruct (all_space s).
Qed.

Lemma X17_witness :
  has_link (Str "  https://vimeo.com/A ") Scenario.start
  = (Ok true, Scenario.start)
  /\ has_link (Str "   ") Scenario.start = (Ok false, Scenario.start).
Proof.
  split.
  - destruct (X17_blank_means_only_white_space "  https://vimeo.com/A "
                ∅ Scenario.start eq_refl) as [H _].
    exact H.
  - destruct (X17_blank_means_only_white_space "   " ∅ Scenario.start
                eq_refl) as [H _].
    exact H.
Defined.

(** ** Links that are not strings *)

Lemma submit_all_numeric env rws :
  Forall (fun row => is_Some (row !! "video_number")
                     /\ is_Some (row !! "vimeo_link")) rws ->
  Exists (fun row => exists z, row !! "vimeo_link" = Some (Num z)) rws ->
  forall w, exists w',
    submit_all env rws w = (Raise (AttributeError "strip"), w').
Proof.
  induction rws as [|row rest IH]; intros Hwf Hnum w.
  - inversion Hnum.
  - inversion Hwf as [|? ? [[vn Hv] [link Hl]] Hwf']; subst.
    destruct link as [|s|z|t].
    + rewrite submit_all_blank by now left.
      apply IH; [exact Hwf' |].
      inversion Hnum as [? ? (z & Hz) | ? ? H]; subst; [congruence | exact H].
    + destruct (String.eqb_spec (strip s) "") as [E | E].
      * rewrite submit_all_blank by (right; eauto).
        apply IH; [exact Hwf' |].
        inversion Hnum as [? ? (z & Hz) | ? ? H]; subst; [congruence | exact H].
      * rewrite (submit_all_link _ _ _ _ _ _ Hl E Hv).
        destruct (process_video env vn s w) as [future w1].
        destruct (IH Hwf' ltac:(inversion Hnum as [? ? (z & Hz) | ? ? H];
                                 subst; [congruence | exact H]) w1)
          as [w' Hr].
        rewrite Hr. eauto.
    + exists w. simpl. unfold row_get. rewrite Hl.
      unfold bind at 1, ret. unfold bind at 1. reflexivity.
    + exists w. simpl. unfold row_get. rewrite Hl.
      unfold bind at 1, ret. unfold bind at 1. reflexivity.
Qed.

(** X16.  When every row has its two columns, the directories can be
    ensured and the [vimeo_link] column holds a number in some row (a
    column of bare ids), a run without limit raises [AttributeError],
    since a number has no [strip]: the exception leaves
    [batch_process_videos] and no summary is produced. *)
Theorem X16_numeric_link_raises env csv w df :
  read_csv env csv = Ok df ->
  "video_number" ∈ columns df -> "vimeo_link" ∈ columns df ->
  Forall (fun row => is_Some (row !! "video_number")
                     /\ is_Some (row !! "vimeo_link")) (rows df) ->
  Exists (fun row => exists z, row !! "vimeo_link" = Some (Num z)) (rows df) ->
  (forall d f, os_makedirs env d f = Ok tt) ->
  exists w',
    batch_process_videos env csv None w = (Raise (AttributeError "strip"), w').
Proof.
  intros Hcsv Hc1 Hc2 Hwf Hnum Hmk. unfold batch_process_videos.
  destruct (ensure_dir_exists_completes env Hmk DOWNLOAD_DIR w) as [w1 H1].
  destruct (ensure_dir_exists_completes env Hmk OUTPUT_DIR w1) as [w2 H2].
  rewrite (bind_eq _ _ _ _ _ H1), (bind_eq _ _ _ _ _ H2).
  unfold bind at 1, try_except, lift. unfold bind at 1. rewrite Hcsv.
  unfold ret at 1.
  rewrite (bool_decide_eq_true_2 _ Hc1), (bool_decide_eq_true_2 _ Hc2).
  simpl. unfold bind at 1. unfold bind at 1.
  match goal with
  | |- context [submit_all env (rows df) ?w0] =>
      destruct (submit_all_numeric env (rows df) Hwf Hnum w0) as [w' Hr]
  end.
  rewrite Hr. eauto.
Qed.

Lemma X16_witness :
  exists w',
    batch_process_videos Scenario.numeric_links_env "final-list.csv" None
      Scenario.start = (Raise (AttributeError "strip"), w').
Proof.
  apply (X16_numeric_link_raises Scenario.numeric_links_env "final-list.csv"
           Scenario.start Scenario.numeric_links eq_refl).
  - apply (bool_decide_unpack _). vm_compute. exact I.
  - apply (bool_decide_unpack _). vm_compute. exact I.
  - repeat constructor; eexists; reflexivity.
  - constructor. exists 76979871. reflexivity.
  - reflexivity.
Defined.

(** ** The scratch directory at the end of the run *)




(** ** Rows that are skipped, and the one exception of an item *)

Lemma filter_length_full {A} (f : A -> bool) l :
  length (List.filter f l) = length l <-> Forall (fun x => f x = true) l.
Proof.
  induction l as [|a l IH]; simpl; [split; [constructor | reflexivity] |].
  destruct (f a) eqn:E; simpl.
  - split.
    + intros [= H]. constructor; [exact E | now apply IH].
    + intros H. inversion H; subst. f_equal. now apply IH.
  - split.
    + intros H. pose proof (List.filter_length_le f l). lia.
    + intros H. inversion H; subst. congruence.
Qed.

(** X18.  In the summary of a completed run the three buckets add up to
    [total] exactly when every row of the manifest (once the limit is
    applied) has a link that is not blank, that is, when no row was
    skipped. *)
Theorem X18_summary_adds_up_iff_no_row_skipped env csv limit w st w' :
  batch_process_videos env csv limit w = (Ok (Some st), w') ->
  exists df t,
    read_csv env csv = Ok df
    /\ st !! "total" = Some t
    /\ (counter_sum st = t
        <-> Forall (fun row => dispatchable row = true)
              (rows (apply_limit limit df))).
Proof.
  intros H.
  destruct (batch_report env _ _ _ _ _ H) as (df & Hcsv & _ & _ & _ & Ht & Hs).
  exists df, (Z.of_nat (length (rows (apply_limit limit df)))).
  split; [exact Hcsv |]. split; [exact Ht |].
  rewrite Hs, <- filter_length_full. lia.
Qed.

Lemma X18_witness :
  exists df t,
    read_csv Scenario.blank_rows_env "final-list.csv" = Ok df
    /\ <["successful" := 1]> (fresh_stats 3) !! "total" = Some t
    /\ (counter_sum (<["successful" := 1]> (fresh_stats 3)) = t
        <-> Forall (fun row => dispatchable row = true)
              (rows (apply_limit None df))).
Proof.
  apply (X18_summary_adds_up_iff_no_row_skipped Scenario.blank_rows_env
           "final-list.csv" None Scenario.start _
           (snd (batch_process_videos Scenario.blank_rows_env
                   "final-list.csv" None Scenario.start))).
  vm_compute. reflexivity.
Defined.

(** X20.  The only exception that can leave [process_video] is the
    [KeyError] of its own [except] clause on a dict without the [failed]
    counter; the counters are then as they were. *)
Theorem X20_only_missing_failed_key_escapes env vn url w e w' :
  process_video env vn url w = (Raise e, w') ->
  e = KeyError "failed"
  /\ stats w !! "failed" = None
  /\ stats w' = stats w.
Proof.
  intros H.
  assert (Hnone : stats w !! "failed" = None).
  { destruct (stats w !! "failed") as [f|] eqn:Hf; [| reflexivity].
    destruct (process_video_never_raises env vn url w ltac:(eauto))
      as (b & w1 & Hp).
    congruence. }
  unfold process_video, try_except in H.
  destruct (process_video_try env vn url w) as [[b|e0] w1] eqn:Hb;
    [discriminate |].
  pose proof (process_video_try_raise env _ _ _ _ _ Hb) as E.
  unfold bind, stats_incr, ret in H. rewrite E, Hnone in H.
  injection H as <- <-. auto.
Qed.

Lemma X20_witness :
  process_video Scenario.three_rows_env (Num 2) "https://vimeo.com/B"
    Scenario.start
  = (Raise (KeyError "failed"), Scenario.start)
  /\ KeyError "failed" = KeyError "failed"
  /\ stats Scenario.start !! "failed" = None
  /\ stats Scenario.start = stats Scenario.start.
Proof.
  split; [vm_compute; reflexivity |].
  apply (X20_only_missing_failed_key_escapes Scenario.three_rows_env (Num 2)
           "https://vimeo.com/B" Scenario.start).
  vm_compute. reflexivity.
Defined.

(** ** A limit of zero *)

Section Completion.

Context (env : Env).

(** On rows whose links are missing or strings the dispatch loop goes
    through all the rows. *)
Lemma submit_all_completes rws :
  Forall url_row rws ->
  forall w, exists futures w', submit_all env rws w = (Ok futures, w').
Proof.
  induction rws as [|row rest IH]; intros Hwf w.
  - exists [], w. reflexivity.
  - inversion Hwf as [|? ? [[vn Hv] Hl] Hwf']; subst.
    destruct Hl as [Hl | (s & Hl & _)].
    + rewrite submit_all_blank by now left. now apply IH.
    + destruct (String.eqb_spec (strip s) "") as [E | E].
      * rewrite submit_all_blank by (right; eauto). now apply IH.
      * rewrite (submit_all_link _ _ _ _ _ _ Hl E Hv).
        destruct (process_video env vn s w) as [future w1].
        destruct (IH Hwf' w1) as (futures & w' & Hr).
        rewrite Hr. eauto.
Qed.

(** A run on a readable manifest with both columns and rows as above
    reaches its summary when the directories can be ensured. *)
Lemma batch_completes csv limit w df :
  read_csv env csv = Ok df ->
  "video_number" ∈ columns df -> "vimeo_link" ∈ columns df ->
  Forall url_row (rows (apply_limit limit df)) ->
  (forall d f, os_makedirs env d f = Ok tt) ->
  exists st w', batch_process_videos env csv limit w = (Ok (Some st), w').
Proof.
  intros Hcsv Hc1 Hc2 Hwf Hmk. unfold batch_process_videos.
  destruct (ensure_dir_exists_completes env Hmk DOWNLOAD_DIR w) as [w1 H1].
  destruct (ensure_dir_exists_completes env Hmk OUTPUT_DIR w1) as [w2 H2].
  rewrite (bind_eq _ _ _ _ _ H1), (bind_eq _ _ _ _ _ H2).
  unfold bind at 1. unfold try_except at 1. unfold lift, bind at 1.
  rewrite Hcsv.
  unfold ret at 1.
  rewrite (bool_decide_eq_true_2 _ Hc1), (bool_decide_eq_true_2 _ Hc2).
  simpl. unfold bind at 1. unfold bind at 1.
  match goal with
  | |- context [submit_all env (rows (apply_limit limit df)) ?w0] =>
      destruct (submit_all_completes _ Hwf w0) as (futures & w5 & Hsub)
  end.
  rewrite Hsub.
  rewrite (bind_eq _ _ _ _ _ (as_completed_swallows futures w5)).
  unfold bind at 1.
  match goal with
  | |- context [try_except ?m ?h w5] =>
      destruct (never_raises_run (try_except m h) w5
                  ltac:(apply never_try; intros; apply never_ret))
        as ([] & w6 & Hclean)
  end.
  rewrite Hclean. unfold bind, get_stats, ret. eauto.
Qed.

End Completion.

(** C10.  A limit of 0 is not applied: the run is the run without a
    limit, on all the rows of the manifest, where [df.head(0)] would have
    kept none.  On a manifest with both columns whose links are missing
    or strings, with directories that can be ensured, the run with limit 0
    reaches its summary, its total is the number of all the rows, and
    every row with a link that is not blank has been processed and
    counted in one of the three buckets. *)
Theorem C10_limit_zero_is_no_limit env csv w :
  batch_process_videos env csv (Some 0) w = batch_process_videos env csv None w
  /\ (forall df, rows (apply_limit (Some 0) df) = rows df)
  /\ forall df,
       read_csv env csv = Ok df ->
       "video_number" ∈ columns df -> "vimeo_link" ∈ columns df ->
       Forall url_row (rows df) ->
       (forall d f, os_makedirs env d f = Ok tt) ->
       exists st w',
         batch_process_videos env csv (Some 0) w = (Ok (Some st), w')
         /\ st !! "total" = Some (Z.of_nat (length (rows df)))
         /\ counter_sum st
            = Z.of_nat (length (List.filter dispatchable (rows df)))
         /\ head 0 (rows df) = [].
Proof.
  split; [reflexivity |]. split; [reflexivity |].
  intros df Hcsv Hc1 Hc2 Hwf Hmk.
  destruct (batch_completes env csv (Some 0) w df Hcsv Hc1 Hc2 Hwf Hmk)
    as (st & w' & Hrun).
  exists st, w'. split; [exact Hrun |].
  destruct (batch_report env _ _ _ _ _ Hrun)
    as (df' & Hcsv' & _ & _ & _ & Ht & Hs).
  rewrite Hcsv in Hcsv'. injection Hcsv' as <-.
  split; [exact Ht |]. split; [exact Hs |]. reflexivity.
Qed.

Lemma C10_witness :
  exists st w',
    batch_process_videos Scenario.three_rows_env "final-list.csv" (Some 0)
      Scenario.start = (Ok (Some st), w')
    /\ st !! "total" = Some 3
    /\ counter_sum st = 3.
Proof.
  destruct (C10_limit_zero_is_no_limit Scenario.three_rows_env
              "final-list.csv" Scenario.start) as (_ & _ & H).
  destruct (H Scenario.three_rows eq_refl) as (st & w' & H1 & H2 & H3 & _).
  - apply (bool_decide_unpack _). vm_compute. exact I.
  - apply (bool_decide_unpack _). vm_compute. exact I.
  - unfold Scenario.three_rows, Scenario.manifest. simpl rows.
    repeat (apply List.Forall_cons;
            [split; [eexists; reflexivity
                    | right; eexists; split; reflexivity] |]).
    apply List.Forall_nil.
  - reflexivity.
  - exists st, w'. split; [exact H1 |]. split; [exact H2 | exact H3].
Defined.
